(** * bayesoptextras.h: Matlab/Octave wrapper helpers of BayesOptimization

    A shallow embedding of [matlab/bayesoptextras.h]: the four field
    accessors [struct_value], [struct_array], [struct_size] and
    [struct_string], the parameter loader [load_parameters] and the
    objective-function bridge [user_function].

    The header talks to two collaborators that live elsewhere: the
    MATLAB C API (mex.h) and the optimisation engine (parameters.h).
    Values of the host are modelled by what the API calls used here
    observe on them; the engine is an interface ([Engine]).  Calls that
    leave the function ([mexPrintf], [mexCallMATLAB], [mxDestroyArray])
    are recorded, in order, in a trace. *)

From Stdlib Require Import ZArith Lia.
From Corelib Require Import SpecFloat.
From stdpp Require Import base strings list gmap.

Local Open Scope string_scope.
Local Open Scope Z_scope.

(** ** Machine arithmetic *)

Module Machine.

(** [size_t] is an unsigned 64-bit integer: arithmetic wraps. *)
Definition SIZE_WIDTH : Z := 64.
Definition size_t_wrap (z : Z) : Z := z mod 2 ^ SIZE_WIDTH.
Definition size_mul (a b : Z) : Z := size_t_wrap (a * b).

(** [int] is a signed 32-bit integer in two's complement. *)
Definition int_wrap (z : Z) : Z := (z + 2 ^ 31) mod 2 ^ 32 - 2 ^ 31.
Definition int_incr (z : Z) : Z := int_wrap (z + 1).

(** [double] is a binary floating-point number: sign, mantissa, exponent. *)
Definition double : Type := spec_float.

Definition sizeof_double : Z := 8.

(** The integral part of a [double] (rounding toward zero); infinities and
    NaN have none. *)
Definition double_trunc (f : double) : option Z :=
  match f with
  | S754_zero _ => Some 0
  | S754_finite s m e =>
      let a := if 0 <=? e then Z.pos m * 2 ^ e else Z.pos m / 2 ^ (- e) in
      Some (if s then - a else a)
  | S754_infinity _ | S754_nan => None
  end.

(** What the conversion [(size_t) f] yields when the integral part of [f]
    is not a [size_t]: C leaves it to the target. *)
Class Target := { size_t_of_unrepresentable : double -> Z }.

(** The cast [(size_t) f]. *)
Definition size_t_of_double `{Target} (f : double) : Z :=
  match double_trunc f with
  | Some z =>
      if (0 <=? z) && (z <? 2 ^ SIZE_WIDTH) then z
      else size_t_of_unrepresentable f
  | None => size_t_of_unrepresentable f
  end.

(** [memcpy(dst, src, bytes)] between two buffers of doubles.  [None] when
    the copy runs past the end of either buffer. *)
Definition memcpy (dst src : list double) (bytes : Z) : option (list double) :=
  let k := Z.to_nat (bytes / sizeof_double) in
  if decide (k <= length src /\ k <= length dst)%nat
  then Some (take k src ++ drop k dst)%list
  else None.

(** [strcpy] into a [char[cap]] buffer: the text and its terminator must
    fit. *)
Definition strcpy (cap : nat) (src : string) : option string :=
  if decide (String.length src < cap)%nat then Some src else None.

(** [a[i]] for an [int] index. *)
Definition array_get {A} (a : list A) (i : Z) : option A :=
  if 0 <=? i then a !! Z.to_nat i else None.

Definition array_set {A} (a : list A) (i : Z) (v : A) : list A :=
  <[Z.to_nat i := v]> a.

End Machine.
Export Machine.

(** ** Host values (mex.h) *)

Inductive mxClassID :=
| mxUNKNOWN_CLASS | mxCELL_CLASS | mxSTRUCT_CLASS | mxLOGICAL_CLASS
| mxCHAR_CLASS | mxVOID_CLASS | mxDOUBLE_CLASS | mxSINGLE_CLASS
| mxINT8_CLASS | mxUINT8_CLASS | mxINT16_CLASS | mxUINT16_CLASS
| mxINT32_CLASS | mxUINT32_CLASS | mxINT64_CLASS | mxUINT64_CLASS
| mxFUNCTION_CLASS.

(** An [mxArray] is opaque to the wrapper; the record holds what each API
    call used in this header returns on it.  [mxGetPr] is the storage of the
    real data read as doubles; [mxFirstAsDouble] is the first real element
    converted to a double, which for a class other than double is not what
    the storage reads as. *)
Record mxArray := MxArray {
  mxGetClassID : mxClassID;
  mxIsComplex : bool;
  mxGetM : Z;
  mxGetN : Z;
  mxGetPr : list double;
  mxFirstAsDouble : double;
  mxArrayToString : string
}.

Definition mxIsNumeric (a : mxArray) : bool :=
  match mxGetClassID a with
  | mxDOUBLE_CLASS | mxSINGLE_CLASS
  | mxINT8_CLASS | mxUINT8_CLASS | mxINT16_CLASS | mxUINT16_CLASS
  | mxINT32_CLASS | mxUINT32_CLASS | mxINT64_CLASS | mxUINT64_CLASS => true
  | _ => false
  end.

Definition mxIsDouble (a : mxArray) : bool :=
  match mxGetClassID a with mxDOUBLE_CLASS => true | _ => false end.

Definition mxIsChar (a : mxArray) : bool :=
  match mxGetClassID a with mxCHAR_CLASS => true | _ => false end.

Definition mxGetScalar (a : mxArray) : double :=
  match mxGetClassID a, mxGetPr a with
  | mxDOUBLE_CLASS, x :: _ => x
  | _, _ => mxFirstAsDouble a
  end.

(** Writing through [mxGetPr]. *)
Definition with_pr (pr : list double) (a : mxArray) : mxArray :=
  {| mxGetClassID := mxGetClassID a; mxIsComplex := mxIsComplex a;
     mxGetM := mxGetM a; mxGetN := mxGetN a; mxGetPr := pr;
     mxFirstAsDouble := mxFirstAsDouble a;
     mxArrayToString := mxArrayToString a |}.

(** The configuration value is a 1x1 struct array: its element 0 maps field
    names to values.  A name that is not a field gives the null pointer. *)
Definition mxGetField (s : gmap string mxArray) (index : Z) (name : string)
  : option mxArray :=
  if index =? 0 then s !! name else None.

(** ** Effects *)

Inductive printf_arg :=
| ArgString (s : string)
| ArgInt (z : Z)
| ArgDouble (f : double).

(** Calls that leave the wrapper. *)
Inductive event :=
| EvPrintf (fmt : string) (args : list printf_arg)
| EvCallMATLAB (nlhs nrhs : Z) (prhs : list (option mxArray)) (name : string)
| EvDestroyArray (a : mxArray).

(** How a run of wrapper code ends: it returns; [mexErrMsgTxt] aborts it with
    a message (the state reached so far stays behind); or it steps outside
    what C defines (a null or out-of-bounds access). *)
Inductive outcome (S A : Type) :=
| Done (a : A) (s : S)
| Raised (msg : string) (s : S)
| Undefined.
Arguments Done {S A} a s.
Arguments Raised {S A} msg s.
Arguments Undefined {S A}.

Definition mex (S A : Type) : Type := S -> outcome S A.

#[export] Instance mex_ret {S} : MRet (mex S) :=
  fun A a s => Done a s.

#[export] Instance mex_bind {S} : MBind (mex S) :=
  fun A B k m s =>
    match m s with
    | Done a s' => k a s'
    | Raised msg s' => Raised msg s'
    | Undefined => Undefined
    end.

(** A state that carries the trace. *)
Class World (S : Type) := {
  trace : S -> list event;
  emit : event -> S -> S
}.

#[export] Instance trace_World : World (list event) :=
  {| trace := fun t => t; emit := fun e t => (t ++ [e])%list |}.

Section Primitives.
Context {S : Type} `{World S}.

Definition mexPrintf (fmt : string) (args : list printf_arg) : mex S unit :=
  fun s => Done tt (emit (EvPrintf fmt args) s).

Definition mexErrMsgTxt {A} (msg : string) : mex S A :=
  fun s => Raised msg s.

Definition mxDestroyArray (a : mxArray) : mex S unit :=
  fun s => Done tt (emit (EvDestroyArray a) s).

(** Reading through a pointer that may be null or out of bounds. *)
Definition defined {A} (o : option A) : mex S A :=
  fun s => match o with Some a => Done a s | None => Undefined end.

(** [#define CHECK0(cond, msg) if (!(cond)) mexErrMsgTxt(msg);] *)
Definition CHECK0 (cond : bool) (msg : string) : mex S unit :=
  if negb cond then mexErrMsgTxt msg else mret tt.
End Primitives.

(** ** Field accessors

    An output parameter [T *result] is modelled by passing the value it
    points to and returning the value it points to afterwards. *)

Section Accessors.
Context {S : Type} `{World S} `{Target}.

Definition struct_value (s : gmap string mxArray) (name : string)
    (result : double) : mex S double :=
  match mxGetField s 0 name with
  | Some val =>
      if negb (mxIsNumeric val && negb (mxIsComplex val)
               && (size_mul (mxGetM val) (mxGetN val) =? 1))
      then mexErrMsgTxt "param fields must be real scalars"
      else mret (mxGetScalar val)
  | None =>
      mexPrintf "Field %s not found. Default not modified.\n" [ArgString name];;
      mret result
  end.

Definition struct_array (s : gmap string mxArray) (name : string)
    (n : Z) (result : list double) : mex S (Z * list double) :=
  match mxGetField s 0 name with
  | Some val =>
      if negb (mxIsNumeric val && negb (mxIsComplex val))
      then mexErrMsgTxt "Param fields must be vector"
      else
        let n := size_mul (mxGetM val) (mxGetN val) in
        result ← defined (memcpy result (mxGetPr val) (size_mul n sizeof_double));
        mret (n, result)
  | None =>
      mexPrintf "Field %s not found. Default not modified.\n" [ArgString name];;
      mret (n, result)
  end.

Definition struct_size (s : gmap string mxArray) (name : string)
    (result : Z) : mex S Z :=
  match mxGetField s 0 name with
  | Some val =>
      if negb (mxIsNumeric val && negb (mxIsComplex val)
               && (size_mul (mxGetM val) (mxGetN val) =? 1))
      then mexErrMsgTxt "param fields must be real scalars"
      else mret (size_t_of_double (mxGetScalar val))
  | None =>
      mexPrintf "Field %s not found. Default not modified.\n" [ArgString name];;
      mret result
  end.

(** [char* result] is passed by value: the assignment in the body rebinds
    the accessor's own copy of the pointer, and nothing is written through
    it.  The caller's text is therefore not among the results. *)
Definition struct_string (s : gmap string mxArray) (name : string)
    (result : string) : mex S unit :=
  match mxGetField s 0 name with
  | Some val =>
      if mxIsChar val
      then let result := mxArrayToString val in mret tt
      else mexErrMsgTxt "Method name must be a string"
  | None =>
      mexPrintf "Field %s not found. Default not modified.\n" [ArgString name]
  end.
End Accessors.

(** ** The objective-function bridge *)

Definition FLEN : Z := 128.   (* max length of user function name *)
Definition MAXRHS : Z := 2.   (* max nrhs for user function *)

(** The slots of [prhs] hold distinct arrays, and a slot of [plhs] keeps the
    pointer it was given after [mxDestroyArray] has released the array. *)
Record user_function_data := {
  f : string;
  plhs : option mxArray * option mxArray;
  prhs : list (option mxArray);
  xrhs : Z;
  nrhs : Z;
  verbose : Z;
  neval : Z
}.

Definition set_plhs (v : option mxArray * option mxArray)
    (d : user_function_data) : user_function_data :=
  {| f := f d; plhs := v; prhs := prhs d; xrhs := xrhs d; nrhs := nrhs d;
     verbose := verbose d; neval := neval d |}.

Definition set_prhs (v : list (option mxArray))
    (d : user_function_data) : user_function_data :=
  {| f := f d; plhs := plhs d; prhs := v; xrhs := xrhs d; nrhs := nrhs d;
     verbose := verbose d; neval := neval d |}.

Definition set_neval (v : Z) (d : user_function_data) : user_function_data :=
  {| f := f d; plhs := plhs d; prhs := prhs d; xrhs := xrhs d; nrhs := nrhs d;
     verbose := verbose d; neval := v |}.

(** The memory the bridge works on: the callback data behind [d_] and the
    trace. *)
Record bridge := { data : user_function_data; console : list event }.

#[export] Instance bridge_World : World bridge :=
  {| trace := console;
     emit := fun e b => {| data := data b; console := (console b ++ [e])%list |} |}.

(** The host environment running the named function: from the calls made so
    far and the arguments of this one, a status and the contents of the two
    result slots. *)
Class Host := {
  host_call : list event -> Z -> Z -> list (option mxArray) -> string ->
              Z * (option mxArray * option mxArray)
}.

Section Bridge.
Context `{Host}.

Definition get_data : mex bridge user_function_data :=
  fun b => Done (data b) b.

Definition modify_data (g : user_function_data -> user_function_data)
  : mex bridge unit :=
  fun b => Done tt {| data := g (data b); console := console b |}.

(** [mexCallMATLAB(nlhs, d->plhs, nrhs, d->prhs, name)] *)
Definition mexCallMATLAB (nlhs nrhs : Z) (name : string) : mex bridge Z :=
  fun b =>
    let d := data b in
    let '(status, results) := host_call (console b) nlhs nrhs (prhs d) name in
    Done status
      {| data := set_plhs results d;
         console := (console b ++ [EvCallMATLAB nlhs nrhs (prhs d) name])%list |}.

(** [gradient] is the caller's output buffer, [None] for the null pointer;
    the buffer as it is on return comes back with the value. *)
Definition user_function (n : Z) (x : list double)
    (gradient : option (list double))
  : mex bridge (double * option (list double)) :=
  modify_data (set_plhs (None, None));;
  d ← get_data;
  slot ← defined (array_get (prhs d) (xrhs d));
  arg ← defined slot;
  pr ← defined (memcpy (mxGetPr arg) x (size_mul n sizeof_double));
  modify_data (set_prhs (array_set (prhs d) (xrhs d) (Some (with_pr pr arg))));;
  status ← mexCallMATLAB (match gradient with Some _ => 2 | None => 1 end)
             (nrhs d) (f d);
  CHECK0 (0 =? status) "error calling user function";;
  d ← get_data;
  r0 ← defined (plhs d).1;
  CHECK0 (mxIsNumeric r0 && negb (mxIsComplex r0)
          && (size_mul (mxGetM r0) (mxGetN r0) =? 1))
         "user function must return real scalar";;
  let fv := mxGetScalar r0 in
  mxDestroyArray r0;;
  gradient ←
    match gradient with
    | Some g =>
        r1 ← defined (plhs d).2;
        CHECK0 (mxIsDouble r1 && negb (mxIsComplex r1)
                && ((mxGetM r1 =? 1) || (mxGetN r1 =? 1))
                && (size_mul (mxGetM r1) (mxGetN r1) =? n))
               "gradient vector from user function is the wrong size";;
        g ← defined (memcpy g (mxGetPr r1) (size_mul n sizeof_double));
        mxDestroyArray r1;;
        mret (Some g)
    | None => mret None
    end;
  modify_data (fun d => set_neval (int_incr (neval d)) d);;
  d ← get_data;
  (if negb (verbose d =? 0)
   then mexPrintf "Optimize eval #%d: %g\n" [ArgInt (neval d); ArgDouble fv]
   else mret tt);;
  mret (fv, gradient).
End Bridge.

(** ** The engine's parameter record (parameters.h)

    The header that declares [bopt_params] is not part of this source tree.
    The records below list the members [load_parameters] names, with the
    types it uses them at; what else the engine keeps in its record is
    [other]. *)

Record kernel_parameters := {
  k_name : string;
  theta : list double;
  s_theta : list double;
  n_theta : Z
}.

Record mean_parameters := {
  m_name : string;
  mu : list double;
  s_mu : list double;
  n_mu : Z
}.

Record bopt_params (surrogate_name learning_type rest : Type) := {
  n_iterations : Z;
  n_inner_iterations : Z;
  n_init_samples : Z;
  verbose_level : Z;
  alpha : double;
  beta : double;
  noise : double;
  kernel : kernel_parameters;
  mean : mean_parameters;
  log_filename : string;
  crit_name : string;
  surr_name : surrogate_name;
  l_type : learning_type;
  other : rest
}.
Arguments n_iterations {_ _ _} _.
Arguments n_inner_iterations {_ _ _} _.
Arguments n_init_samples {_ _ _} _.
Arguments verbose_level {_ _ _} _.
Arguments alpha {_ _ _} _.
Arguments beta {_ _ _} _.
Arguments noise {_ _ _} _.
Arguments kernel {_ _ _} _.
Arguments mean {_ _ _} _.
Arguments log_filename {_ _ _} _.
Arguments crit_name {_ _ _} _.
Arguments surr_name {_ _ _} _.
Arguments l_type {_ _ _} _.
Arguments other {_ _ _} _.

(** What this header consumes from the engine. *)
Class Engine := {
  surrogate_name : Type;
  learning_type : Type;
  engine_rest : Type;
  initialize_parameters_to_default :
    bopt_params surrogate_name learning_type engine_rest;
  surrogate2str : surrogate_name -> string;
  str2surrogate : string -> surrogate_name;
  learn2str : learning_type -> string;
  str2learn : string -> learning_type
}.

(** ** The parameter loader *)

Section Loader.
Context `{Target} `{Engine}.

Abbreviation params_t := (bopt_params surrogate_name learning_type engine_rest).

Definition load_parameters (params : gmap string mxArray)
  : mex (list event) params_t :=
  let parameters := initialize_parameters_to_default in
  let n_theta0 := n_theta (kernel parameters) in
  let n_mu0 := n_mu (mean parameters) in

  p_n_iterations ← struct_size params "n_iterations" (n_iterations parameters);
  p_n_inner_iterations ←
    struct_size params "n_inner_iterations" (n_inner_iterations parameters);
  p_n_init_samples ←
    struct_size params "n_init_iterations" (n_init_samples parameters);
  p_verbose_level ← struct_size params "verbose_level" (verbose_level parameters);

  p_alpha ← struct_value params "alpha" (alpha parameters);
  p_beta ← struct_value params "beta" (beta parameters);
  p_noise ← struct_value params "noise" (noise parameters);

  '(k_n_theta, k_theta) ←
    struct_array params "theta" (n_theta (kernel parameters))
                 (theta (kernel parameters));
  '(n_theta1, k_s_theta) ←
    struct_array params "s_theta" n_theta0 (s_theta (kernel parameters));
  CHECK0 (k_n_theta =? n_theta1) "Error processing kernel parameters";;

  '(m_n_mu, m_mu) ←
    struct_array params "mu" (n_mu (mean parameters)) (mu (mean parameters));
  '(n_mu1, m_s_mu) ←
    struct_array params "s_mu" n_mu0 (s_mu (mean parameters));
  CHECK0 (m_n_mu =? n_mu1) "Error processing mean parameters";;

  struct_string params "log_filename" (log_filename parameters);;
  struct_string params "kernel_name" (k_name (kernel parameters));;
  struct_string params "mean_name" (m_name (mean parameters));;
  struct_string params "crit_name" (crit_name parameters);;

  s_str ← defined (strcpy 100 (surrogate2str (surr_name parameters)));
  struct_string params "surr_name" s_str;;
  let p_surr_name := str2surrogate s_str in

  l_str ← defined (strcpy 100 (learn2str (l_type parameters)));
  struct_string params "l_type" l_str;;
  let p_l_type := str2learn l_str in

  mret {| n_iterations := p_n_iterations;
          n_inner_iterations := p_n_inner_iterations;
          n_init_samples := p_n_init_samples;
          verbose_level := p_verbose_level;
          alpha := p_alpha;
          beta := p_beta;
          noise := p_noise;
          kernel := {| k_name := k_name (kernel parameters);
                       theta := k_theta;
                       s_theta := k_s_theta;
                       n_theta := k_n_theta |};
          mean := {| m_name := m_name (mean parameters);
                     mu := m_mu;
                     s_mu := m_s_mu;
                     n_mu := m_n_mu |};
          log_filename := log_filename parameters;
          crit_name := crit_name parameters;
          surr_name := p_surr_name;
          l_type := p_l_type;
          other := other parameters |}.
End Loader.

(** ** Vocabulary of the specification *)

(** The error taxonomy, and the kind of each message the header passes to
    [mexErrMsgTxt]. *)
Inductive ErrorKind := TypeError | CapacityError | ValidationError | InvocationError.

Definition error_kind (msg : string) : option ErrorKind :=
  if decide (msg ∈ ["param fields must be real scalars";
                    "Param fields must be vector";
                    "Method name must be a string";
                    "user function must return real scalar";
                    "gradient vector from user function is the wrong size"])
  then Some TypeError
  else if decide (msg ∈ ["Error processing kernel parameters";
                         "Error processing mean parameters"])
  then Some ValidationError
  else if decide (msg = "error calling user function")
  then Some InvocationError
  else None.

Definition fails_with {S A} (o : outcome S A) (k : ErrorKind) : Prop :=
  exists msg s, o = Raised msg s /\ error_kind msg = Some k.

(** The optional fields, in the order [load_parameters] reads them. *)
Definition size_fields : list string :=
  ["n_iterations"; "n_inner_iterations"; "n_init_iterations"; "verbose_level"].
Definition value_fields : list string := ["alpha"; "beta"; "noise"].
Definition array_fields : list string := ["theta"; "s_theta"; "mu"; "s_mu"].
Definition string_fields : list string :=
  ["log_filename"; "kernel_name"; "mean_name"; "crit_name"; "surr_name"; "l_type"].
Definition optional_fields : list string :=
  (size_fields ++ value_fields ++ array_fields ++ string_fields)%list.

Definition absence_diagnostic (name : string) : event :=
  EvPrintf "Field %s not found. Default not modified.\n" [ArgString name].

(** The number of elements of a host array, as the header computes it. *)
Definition element_count (a : mxArray) : Z := size_mul (mxGetM a) (mxGetN a).

Definition real_numeric (a : mxArray) : bool :=
  mxIsNumeric a && negb (mxIsComplex a).

Definition real_scalar (a : mxArray) : bool :=
  real_numeric a && (element_count a =? 1).

Definition real_numeric_vector (n : Z) (a : mxArray) : bool :=
  real_numeric a && ((mxGetM a =? 1) || (mxGetN a =? 1)) && (element_count a =? n).

(** A field that is absent, or a real scalar. *)
Definition scalar_field_ok (params : gmap string mxArray) (name : string) : bool :=
  match params !! name with
  | Some v => real_scalar v
  | None => true
  end.

Definition scalars_ok (params : gmap string mxArray) : bool :=
  forallb (scalar_field_ok params) (size_fields ++ value_fields)%list.

(** A real numeric array that fits a buffer of [cap] doubles and whose storage
    holds its elements. *)
Definition real_array_within (cap : nat) (v : mxArray) : bool :=
  real_numeric v
  && bool_decide (Z.to_nat (element_count v) <= cap)%nat
  && bool_decide (Z.to_nat (element_count v) <= length (mxGetPr v))%nat.

(** A field that is absent, or such an array. *)
Definition array_field_ok (cap : nat) (params : gmap string mxArray)
    (name : string) : bool :=
  match params !! name with
  | Some v => real_array_within cap v
  | None => true
  end.

(** The length an array field leaves in its length variable. *)
Definition field_count (dflt : Z) (params : gmap string mxArray)
    (name : string) : Z :=
  match params !! name with
  | Some v => element_count v
  | None => dflt
  end.

(** The buffer each array field is copied into, and its capacity. *)
Definition buffer_of `{Engine} (name : string) : list double :=
  let parameters := initialize_parameters_to_default in
  if decide (name = "theta") then theta (kernel parameters)
  else if decide (name = "s_theta") then s_theta (kernel parameters)
  else if decide (name = "mu") then mu (mean parameters)
  else s_mu (mean parameters).

Definition capacity_of `{Engine} (name : string) : nat := length (buffer_of name).

(** The calls to the host function in a stretch of trace: the number of
    results each one asks for. *)
Definition results_requested (evs : list event) : list Z :=
  omap (fun e => match e with EvCallMATLAB nlhs _ _ _ => Some nlhs | _ => None end) evs.

(** The counter left behind by a run of the bridge. *)
Definition counter_after {A} (o : outcome bridge A) : option Z :=
  match o with
  | Done _ b | Raised _ b => Some (neval (data b))
  | Undefined => None
  end.

(** The memory a run of the bridge leaves behind, when it returns and when
    it raises. *)
Definition left_behind {A} (o : outcome bridge A) : option bridge :=
  match o with
  | Done _ b | Raised _ b => Some b
  | Undefined => None
  end.

(** What a call of the bridge on an [n]-dimensional point [x] may change in
    the callback data: the storage of the argument at position [xrhs], which
    receives the point, the two result slots and the counter. *)
Record bridge_frame (n : Z) (x : list double) (d d' : user_function_data) : Prop := {
  frame_f : f d' = f d;
  frame_xrhs : xrhs d' = xrhs d;
  frame_nrhs : nrhs d' = nrhs d;
  frame_verbose : verbose d' = verbose d;
  frame_prhs : exists arg pr,
    array_get (prhs d) (xrhs d) = Some (Some arg) /\
    memcpy (mxGetPr arg) x (size_mul n sizeof_double) = Some pr /\
    prhs d' = array_set (prhs d) (xrhs d) (Some (with_pr pr arg))
}.

(** ** The surrogate-type enumeration *)

(** The engine declares the surrogate-type enumeration and its two
    conversions in parameters.h, which is not part of this source tree.  The
    specification describes a closed set of valid names, a rendering of each
    member to its name ([surrogate_name_to_text]) and a parse
    ([text_to_surrogate_name]) that accepts the valid names and fails on any
    other text.  Below, a member is its ordinal in the enumeration, as for a
    C enum, and [names] lists the members' names in that order. *)

(** Modelled from the spec: the members of the surrogate-type enumeration of
    parameters.h, the ordinals of its names. *)
Definition valid_member (names : list string) (m : nat) : Prop :=
  (m < length names)%nat.

(** Modelled from the spec: [surrogate_name_to_text] of parameters.h, the
    rendering of a member to its name. *)
Definition surrogate_name_to_text (names : list string) (m : nat) : string :=
  default "" (names !! m).

(** The first position of a text in a list of names. *)
Fixpoint position (t : string) (l : list string) : option nat :=
  match l with
  | [] => None
  | name :: rest =>
      if decide (t = name) then Some 0%nat else S <$> position t rest
  end.

(** Modelled from the spec: [text_to_surrogate_name] of parameters.h, the
    parse of a name to its member; a text outside the closed set of valid
    names is rejected. *)
Definition text_to_surrogate_name (names : list string) (t : string)
  : option nat :=
  position t names.

(** ** A concrete engine, target and hosts, to run the model on *)

Module Sample.

Definition dbl (m : positive) (e : Z) : double := S754_finite false m e.
Definition neg (m : positive) (e : Z) : double := S754_finite true m e.
Definition zero : double := S754_zero false.

(** An m-by-n double array. *)
Definition mx_double (m n : Z) (elems : list double) : mxArray :=
  {| mxGetClassID := mxDOUBLE_CLASS; mxIsComplex := false;
     mxGetM := m; mxGetN := n; mxGetPr := elems;
     mxFirstAsDouble := hd zero elems; mxArrayToString := "" |}.

Definition mx_scalar (x : double) : mxArray := mx_double 1 1 [x].

Definition mx_row (elems : list double) : mxArray :=
  mx_double 1 (Z.of_nat (length elems)) elems.

Definition mx_char (text : string) : mxArray :=
  {| mxGetClassID := mxCHAR_CLASS; mxIsComplex := false;
     mxGetM := 1; mxGetN := Z.of_nat (String.length text); mxGetPr := [];
     mxFirstAsDouble := zero; mxArrayToString := text |}.

#[export] Instance target : Target :=
  {| size_t_of_unrepresentable := fun _ => 2 ^ 63 |}.

Definition surrogate_names : list string :=
  ["GAUSSIAN_PROCESS"; "STUDENT_T_PROCESS"].
Definition learning_names : list string := ["L_ML"; "L_MAP"].

Definition defaults : bopt_params nat nat unit :=
  {| n_iterations := 300; n_inner_iterations := 500; n_init_samples := 30;
     verbose_level := 1;
     alpha := dbl 1 0; beta := dbl 1 0; noise := dbl 1 (-10);
     kernel := {| k_name := "kMaternISO3";
                  theta := [dbl 1 0; zero; zero; zero];
                  s_theta := [dbl 5 0; zero; zero; zero];
                  n_theta := 1 |};
     mean := {| m_name := "mOne";
                mu := [dbl 1 0; zero; zero; zero];
                s_mu := [dbl 1 0; zero; zero; zero];
                n_mu := 1 |};
     log_filename := "bayesopt.log"; crit_name := "cEI";
     surr_name := 0%nat; l_type := 0%nat; other := tt |}.

(** A text that names no member parses to the ordinal past the last one. *)
#[export] Instance engine : Engine :=
  {| surrogate_name := nat; learning_type := nat; engine_rest := unit;
     initialize_parameters_to_default := defaults;
     surrogate2str := surrogate_name_to_text surrogate_names;
     str2surrogate := fun t =>
       default (length surrogate_names) (text_to_surrogate_name surrogate_names t);
     learn2str := surrogate_name_to_text learning_names;
     str2learn := fun t =>
       default (length learning_names) (text_to_surrogate_name learning_names t) |}.

(** 4.2, to the nearest double. *)
Definition d4_2 : double := dbl 4728779608739021 (-50).

(** A host function that returns 4.2 and, when asked for a second result,
    the row vector [grad]. *)
Definition host_returning (grad : list double) : Host :=
  {| host_call := fun _ nlhs _ _ _ =>
       (0, (Some (mx_scalar d4_2),
            if nlhs =? 2 then Some (mx_row grad) else None)) |}.

(** Callback data for a function [fobj(x)] of a 3-dimensional point. *)
Definition callback : user_function_data :=
  {| f := "fobj"; plhs := (None, None);
     prhs := [Some (mx_double 3 1 [zero; zero; zero]); None];
     xrhs := 0; nrhs := 1; verbose := 0; neval := 7 |}.

Definition start : bridge := {| data := callback; console := [] |}.

Definition point : list double := [dbl 1 0; dbl 1 1; dbl 3 0].

(** Configurations. *)
Definition config_unknown_only : gmap string mxArray :=
  {[ "comment" := mx_char "unused" ]}.
Definition long_theta : mxArray :=
  mx_row [dbl 1 0; dbl 1 0; dbl 1 0; dbl 1 0; dbl 1 0].
Definition config_long_theta : gmap string mxArray :=
  {[ "theta" := long_theta ]}.
Definition config_surrogate : gmap string mxArray :=
  {[ "surr_name" := mx_char "STUDENT_T_PROCESS" ]}.
Definition config_unequal : gmap string mxArray :=
  {[ "theta" := mx_row [dbl 1 0; dbl 1 1]; "s_theta" := mx_row [dbl 1 (-3)] ]}.
Definition config_theta_only : gmap string mxArray :=
  {[ "theta" := mx_row [dbl 1 0; dbl 1 1] ]}.
Definition config_mu_only : gmap string mxArray :=
  {[ "mu" := mx_row [dbl 1 0; dbl 1 1] ]}.
(** 2.75 and -0.5 as iteration budgets. *)
Definition config_fraction : gmap string mxArray :=
  {[ "n_iterations" := mx_scalar (dbl 11 (-2)) ]}.
Definition config_negative : gmap string mxArray :=
  {[ "n_iterations" := mx_scalar (neg 1 (-1)) ]}.

End Sample.

(** ** Vocabulary for the whole of a load and of a call *)

(** A text field that is absent, or a char array. *)
Definition string_field_ok (params : gmap string mxArray) (name : string) : bool :=
  match params !! name with
  | Some v => mxIsChar v
  | None => true
  end.

Definition strings_ok (params : gmap string mxArray) : bool :=
  forallb (string_field_ok params) string_fields.

(** What a count field and a real field leave in their variables. *)
Definition field_size `{Target} (dflt : Z) (params : gmap string mxArray)
    (name : string) : Z :=
  match params !! name with
  | Some v => size_t_of_double (mxGetScalar v)
  | None => dflt
  end.

Definition field_value (dflt : double) (params : gmap string mxArray)
    (name : string) : double :=
  match params !! name with
  | Some v => mxGetScalar v
  | None => dflt
  end.

(** What an array field leaves in the buffer [dflt] it is copied into. *)
Definition array_loaded (dflt : list double) (params : gmap string mxArray)
    (name : string) (r : list double) : Prop :=
  match params !! name with
  | Some v =>
      real_numeric v = true /\
      memcpy dflt (mxGetPr v) (size_mul (element_count v) sizeof_double) = Some r
  | None => r = dflt
  end.

(** The buffer of an array field in a parameter record. *)
Definition array_in {SN LT R} (p : bopt_params SN LT R) (name : string)
  : list double :=
  if decide (name = "theta") then theta (kernel p)
  else if decide (name = "s_theta") then s_theta (kernel p)
  else if decide (name = "mu") then mu (mean p)
  else s_mu (mean p).

(** The state after the lookup of one field: an absent field is reported. *)
Definition after_field {S} `{World S} (params : gmap string mxArray)
    (name : string) (s : S) : S :=
  match params !! name with
  | Some _ => s
  | None => emit (absence_diagnostic name) s
  end.

(** The optional fields a configuration does not have, in reading order. *)
Definition absent_fields (params : gmap string mxArray) : list string :=
  filter (fun name => params !! name = None) optional_fields.

(** The messages each function hands to [mexErrMsgTxt]. *)
Definition loader_messages : list string :=
  ["param fields must be real scalars"; "Param fields must be vector";
   "Method name must be a string"; "Error processing kernel parameters";
   "Error processing mean parameters"].

Definition bridge_messages : list string :=
  ["error calling user function"; "user function must return real scalar";
   "gradient vector from user function is the wrong size"].

(** The arrays released in a stretch of trace, in order. *)
Definition released (evs : list event) : list mxArray :=
  omap (fun e => match e with EvDestroyArray a => Some a | _ => None end) evs.

(** The lines printed in a stretch of trace, in order. *)
Definition printed (evs : list event) : list (string * list printf_arg) :=
  omap (fun e => match e with EvPrintf fmt args => Some (fmt, args) | _ => None end) evs.

(** The argument slot of the bridge holds an array with room for a point of
    dimension [n]. *)
Definition bridge_ready (n : Z) (b : bridge) : Prop :=
  exists arg,
    array_get (prhs (data b)) (xrhs (data b)) = Some (Some arg)
    /\ (Z.to_nat n <= length (mxGetPr arg))%nat.

(** The check the bridge makes on a gradient result. *)
Definition real_double_vector (n : Z) (a : mxArray) : bool :=
  mxIsDouble a && negb (mxIsComplex a)
  && ((mxGetM a =? 1) || (mxGetN a =? 1)) && (element_count a =? n).

(** The number of results the bridge asks the host function for. *)
Definition nlhs_for (gradient : option (list double)) : Z :=
  match gradient with Some _ => 2 | None => 1 end.

(** What [mexCallMATLAB] promises of a host call that completes: as many
    results as were asked for. *)
Definition host_keeps_contract `{Host} : Prop :=
  forall t nlhs nrhs prhs name r0 r1,
    host_call t nlhs nrhs prhs name = (0, (r0, r1)) ->
    is_Some r0 /\ (nlhs = 2 -> is_Some r1).

(** The storage of a double array a host call returns as second result
    holds the elements of the array. *)
Definition host_results_hold_elements `{Host} : Prop :=
  forall t nlhs nrhs prhs name status r0 r1,
    host_call t nlhs nrhs prhs name = (status, (r0, Some r1)) ->
    mxIsDouble r1 = true ->
    (Z.to_nat (element_count r1) <= length (mxGetPr r1))%nat.

(** ** More configurations, hosts and callback data to run the model on *)

Module Runs.
Import Sample.

(** A budget of 50 iterations, a noise of 1/8, two kernel hyperparameters
    with their uncertainties, a surrogate name and a field the loader does
    not know. *)
Definition config_kernel : gmap string mxArray :=
  {[ "n_iterations" := mx_scalar (dbl 25 1);
     "noise" := mx_scalar (dbl 1 (-3));
     "theta" := mx_row [dbl 1 0; dbl 1 1];
     "s_theta" := mx_row [dbl 1 (-3); dbl 1 (-3)];
     "surr_name" := mx_char "STUDENT_T_PROCESS";
     "comment" := mx_char "unused" ]}.

(** The same without the unknown field. *)
Definition config_kernel_known : gmap string mxArray :=
  {[ "n_iterations" := mx_scalar (dbl 25 1);
     "noise" := mx_scalar (dbl 1 (-3));
     "theta" := mx_row [dbl 1 0; dbl 1 1];
     "s_theta" := mx_row [dbl 1 (-3); dbl 1 (-3)];
     "surr_name" := mx_char "STUDENT_T_PROCESS" ]}.

(** The optional fields [config_kernel] does not have. *)
Definition config_kernel_absent : list string :=
  ["n_inner_iterations"; "n_init_iterations"; "verbose_level"; "alpha"; "beta";
   "mu"; "s_mu"; "log_filename"; "kernel_name"; "mean_name"; "crit_name";
   "l_type"].

(** A budget given as text, after a well-formed noise. *)
Definition config_text_budget : gmap string mxArray :=
  {[ "n_iterations" := mx_char "fifty"; "noise" := mx_scalar (dbl 1 (-3)) ]}.

(** A host whose call does not complete. *)
Definition host_failing : Host :=
  {| host_call := fun _ _ _ _ _ => (1, (None, None)) |}.

(** A host function that returns text. *)
Definition host_returning_text : Host :=
  {| host_call := fun _ _ _ _ _ => (0, (Some (mx_char "4.2"), None)) |}.

(** The callback data of [Sample.callback], with [verbose] set. *)
Definition chatty : bridge :=
  {| data := {| f := "fobj"; plhs := (None, None);
                prhs := [Some (mx_double 3 1 [zero; zero; zero]); None];
                xrhs := 0; nrhs := 1; verbose := 1; neval := 7 |};
     console := [] |}.

Definition point_array : mxArray := mx_double 3 1 [zero; zero; zero].
Definition other_point : list double := [dbl 5 0; dbl 3 1; dbl 7 0].
Definition slope : list double := [dbl 1 0; dbl 1 1; dbl 1 2].

End Runs.

(** * Properties *)

(** ** Machine arithmetic *)

Lemma size_mul_range a b : 0 <= size_mul a b < 2 ^ 64.
Proof. unfold size_mul, size_t_wrap, SIZE_WIDTH. apply Z.mod_pos_bound. lia. Qed.

Lemma element_count_range a : 0 <= element_count a < 2 ^ 64.
Proof. apply size_mul_range. Qed.

(** The number of doubles in [c * sizeof(double)] bytes is [c] modulo 2^61. *)
Lemma doubles_in_bytes c :
  size_mul c sizeof_double / sizeof_double = c mod 2 ^ 61.
Proof.
  unfold size_mul, size_t_wrap, SIZE_WIDTH, sizeof_double.
  replace (2 ^ 64) with (2 ^ 61 * 8) by reflexivity.
  rewrite Z.mul_mod_distr_r by lia.
  apply Z.div_mul. lia.
Qed.

Lemma doubles_in_bytes_le c :
  0 <= c -> (Z.to_nat (size_mul c sizeof_double / sizeof_double) <= Z.to_nat c)%nat.
Proof.
  intros Hc. rewrite doubles_in_bytes.
  apply Z2Nat.inj_le; [apply Z.mod_pos_bound; lia | lia |].
  apply Z.mod_le; lia.
Qed.

Lemma doubles_in_bytes_small c :
  0 <= c < 2 ^ 61 -> size_mul c sizeof_double / sizeof_double = c.
Proof. intros Hc. rewrite doubles_in_bytes. apply Z.mod_small. lia. Qed.

Lemma memcpy_fits dst src c :
  0 <= c ->
  (Z.to_nat c <= length dst)%nat -> (Z.to_nat c <= length src)%nat ->
  is_Some (memcpy dst src (size_mul c sizeof_double)).
Proof.
  intros Hc Hd Hs. unfold memcpy.
  pose proof (doubles_in_bytes_le c Hc).
  case_decide as Hk; [eauto | lia].
Qed.

Lemma memcpy_overrun dst src c :
  0 <= c < 2 ^ 61 -> (length dst < Z.to_nat c)%nat ->
  memcpy dst src (size_mul c sizeof_double) = None.
Proof.
  intros Hc Hd. unfold memcpy. rewrite doubles_in_bytes_small by done.
  case_decide as Hk; [lia | done].
Qed.

Lemma memcpy_exact dst src c r :
  0 <= c < 2 ^ 61 ->
  memcpy dst src (size_mul c sizeof_double) = Some r ->
  r = (take (Z.to_nat c) src ++ drop (Z.to_nat c) dst)%list
  /\ (Z.to_nat c <= length src)%nat /\ (Z.to_nat c <= length dst)%nat.
Proof.
  intros Hc. unfold memcpy. rewrite doubles_in_bytes_small by done.
  case_decide as Hk; [|done]. intros [= <-]. tauto.
Qed.

Lemma int_incr_in_range z : - 2 ^ 31 <= z < 2 ^ 31 - 1 -> int_incr z = z + 1.
Proof.
  intros Hz. unfold int_incr, int_wrap.
  rewrite Z.mod_small; lia.
Qed.

(** ** Running the monad *)

Lemma bind_run {S A B} (m : mex S A) (k : A -> mex S B) (s : S) :
  (m ≫= k) s =
  match m s with
  | Done a s' => k a s'
  | Raised msg s' => Raised msg s'
  | Undefined => Undefined
  end.
Proof. reflexivity. Qed.

Lemma bind_Done_inv {S A B} (m : mex S A) (k : A -> mex S B) s b s2 :
  (m ≫= k) s = Done b s2 ->
  exists a s1, m s = Done a s1 /\ k a s1 = Done b s2.
Proof. rewrite bind_run. destruct (m s); [eauto | done | done]. Qed.

Lemma defined_Done_inv {S A} (o : option A) (s : S) a s1 :
  defined o s = Done a s1 -> o = Some a /\ s1 = s.
Proof. unfold defined. destruct o; [|done]. by intros [= -> ->]. Qed.

Lemma CHECK0_Done_inv {S} `{World S} cond msg (s : S) u s1 :
  CHECK0 cond msg s = Done u s1 -> cond = true /\ s1 = s.
Proof. unfold CHECK0. destruct cond; [by intros [= _ ->] | done]. Qed.

Lemma error_kind_never_capacity msg : error_kind msg <> Some CapacityError.
Proof. unfold error_kind. repeat case_decide; done. Qed.

(** ** The accessors, case by case *)

Section AccessorRuns.
Context {S : Type} `{World S} `{Target}.
Implicit Types (params : gmap string mxArray) (name : string) (s : S).

Lemma struct_size_run params name r s :
  struct_size params name r s =
  match params !! name with
  | Some v =>
      if real_scalar v then Done (size_t_of_double (mxGetScalar v)) s
      else Raised "param fields must be real scalars" s
  | None => Done r (emit (absence_diagnostic name) s)
  end.
Proof.
  unfold struct_size, mxGetField. cbn [Z.eqb].
  destruct (params !! name) as [v|]; [|done].
  change (mxIsNumeric v && negb (mxIsComplex v)
          && (size_mul (mxGetM v) (mxGetN v) =? 1)) with (real_scalar v).
  by destruct (real_scalar v).
Qed.

Lemma struct_value_run params name r s :
  struct_value params name r s =
  match params !! name with
  | Some v =>
      if real_scalar v then Done (mxGetScalar v) s
      else Raised "param fields must be real scalars" s
  | None => Done r (emit (absence_diagnostic name) s)
  end.
Proof.
  unfold struct_value, mxGetField. cbn [Z.eqb].
  destruct (params !! name) as [v|]; [|done].
  change (mxIsNumeric v && negb (mxIsComplex v)
          && (size_mul (mxGetM v) (mxGetN v) =? 1)) with (real_scalar v).
  by destruct (real_scalar v).
Qed.

Lemma struct_array_run params name n result s :
  struct_array params name n result s =
  match params !! name with
  | Some v =>
      if real_numeric v then
        match memcpy result (mxGetPr v) (size_mul (element_count v) sizeof_double) with
        | Some r => Done (element_count v, r) s
        | None => Undefined
        end
      else Raised "Param fields must be vector" s
  | None => Done (n, result) (emit (absence_diagnostic name) s)
  end.
Proof.
  unfold struct_array, mxGetField. cbn [Z.eqb].
  destruct (params !! name) as [v|]; [|done].
  change (mxIsNumeric v && negb (mxIsComplex v)) with (real_numeric v).
  destruct (real_numeric v); [|done].
  cbn [negb]. rewrite bind_run. unfold defined, element_count.
  by destruct (memcpy _ _ _).
Qed.

Lemma struct_string_run params name result s :
  struct_string params name result s =
  match params !! name with
  | Some v =>
      if mxIsChar v then Done tt s
      else Raised "Method name must be a string" s
  | None => Done tt (emit (absence_diagnostic name) s)
  end.
Proof.
  unfold struct_string, mxGetField. cbn [Z.eqb].
  destruct (params !! name) as [v|]; [|done].
  by destruct (mxIsChar v).
Qed.
End AccessorRuns.

(** ** The loader, step by step *)

Ltac inv_bind_as H E :=
  let a := fresh "a" in
  let s := fresh "s" in
  apply bind_Done_inv in H; destruct H as (a & s & E & H);
  lazymatch type of a with
  | (_ * _)%type => destruct a
  | unit => destruct a
  | _ => idtac
  end;
  cbv beta iota zeta in H.

Tactic Notation "inv_bind" hyp(H) "as" ident(E) := inv_bind_as H E.
Tactic Notation "inv_bind" hyp(H) := let E := fresh "E" in inv_bind_as H E.

Section LoaderSteps.
Context `{Target} `{Engine}.
Implicit Types (params : gmap string mxArray) (name : string) (t : list event).

Lemma scalars_ok_elim params name :
  scalars_ok params = true ->
  name ∈ (size_fields ++ value_fields)%list ->
  scalar_field_ok params name = true.
Proof.
  unfold scalars_ok. rewrite forallb_forall. intros Hall Hin.
  apply Hall. by apply list_elem_of_In.
Qed.

Lemma struct_size_ok params name r t :
  scalar_field_ok params name = true ->
  exists r' t', struct_size params name r t = Done r' t'.
Proof.
  intros Hok. rewrite struct_size_run. unfold scalar_field_ok in Hok.
  destruct (params !! name) as [v|]; [rewrite Hok|]; eauto.
Qed.

Lemma struct_value_ok params name r t :
  scalar_field_ok params name = true ->
  exists r' t', struct_value params name r t = Done r' t'.
Proof.
  intros Hok. rewrite struct_value_run. unfold scalar_field_ok in Hok.
  destruct (params !! name) as [v|]; [rewrite Hok|]; eauto.
Qed.

Lemma struct_array_ok params name n result t :
  array_field_ok (length result) params name = true ->
  exists r' t',
    struct_array params name n result t = Done (field_count n params name, r') t'.
Proof.
  intros Hok. rewrite struct_array_run.
  unfold array_field_ok, field_count, real_array_within in *.
  destruct (params !! name) as [v|]; [|eauto].
  apply andb_prop in Hok as [Hok Hsrc]. apply andb_prop in Hok as [Hreal Hdst].
  apply bool_decide_eq_true in Hsrc, Hdst. rewrite Hreal.
  destruct (memcpy_fits result (mxGetPr v) (element_count v)) as [r' ->];
    [apply element_count_range | done | done | eauto].
Qed.

Lemma struct_array_Done_inv params name n result t n' r' t' :
  struct_array params name n result t = Done (n', r') t' ->
  n' = field_count n params name /\
  forall v, params !! name = Some v ->
    real_numeric v = true /\
    memcpy result (mxGetPr v) (size_mul (element_count v) sizeof_double) = Some r'.
Proof.
  rewrite struct_array_run. unfold field_count.
  destruct (params !! name) as [v|].
  - destruct (real_numeric v) eqn:Hreal; [|done].
    destruct (memcpy _ _ _) as [r|] eqn:Hcopy; [|done].
    intros [= <- <- <-]. split; [done|]. by intros ? [= <-].
  - intros [= <- <- <-]. done.
Qed.

(** An array with more elements than the buffer holds: no check stands
    between it and [memcpy]. *)
Lemma struct_array_overrun params name n result t v :
  params !! name = Some v ->
  real_numeric v = true ->
  (length result < Z.to_nat (element_count v))%nat ->
  element_count v < 2 ^ 61 ->
  struct_array params name n result t = Undefined.
Proof.
  intros Hv Hreal Hcap Hsmall. rewrite struct_array_run, Hv, Hreal.
  rewrite memcpy_overrun; [done | | done].
  pose proof (element_count_range v). lia.
Qed.

(** Everything a successful load tells about the configuration and about
    the record it returns. *)
Lemma load_parameters_Done_inv params t p t' :
  load_parameters params t = Done p t' ->
  let D := initialize_parameters_to_default in
  (n_theta (kernel p) = field_count (n_theta (kernel D)) params "theta"
   /\ field_count (n_theta (kernel D)) params "theta"
      = field_count (n_theta (kernel D)) params "s_theta"
   /\ n_mu (mean p) = field_count (n_mu (mean D)) params "mu"
   /\ field_count (n_mu (mean D)) params "mu"
      = field_count (n_mu (mean D)) params "s_mu")
  /\ (forall name v, name ∈ array_fields -> params !! name = Some v ->
        real_numeric v = true /\
        is_Some (memcpy (buffer_of name) (mxGetPr v)
                        (size_mul (element_count v) sizeof_double)))
  /\ (log_filename p = log_filename D
      /\ k_name (kernel p) = k_name (kernel D)
      /\ m_name (mean p) = m_name (mean D)
      /\ crit_name p = crit_name D
      /\ surr_name p = str2surrogate (surrogate2str (surr_name D))
      /\ l_type p = str2learn (learn2str (l_type D))).
Proof.
  intros Hload D. unfold load_parameters in Hload. cbv zeta in Hload.
  do 7 inv_bind Hload.
  inv_bind Hload as Ea. apply struct_array_Done_inv in Ea as [-> Htheta].
  inv_bind Hload as Eb. apply struct_array_Done_inv in Eb as [-> Hstheta].
  inv_bind Hload as Ec. apply CHECK0_Done_inv in Ec as [Hk%Z.eqb_eq ->].
  inv_bind Hload as Ed. apply struct_array_Done_inv in Ed as [-> Hmu].
  inv_bind Hload as Ee. apply struct_array_Done_inv in Ee as [-> Hsmu].
  inv_bind Hload as Ef. apply CHECK0_Done_inv in Ef as [Hm%Z.eqb_eq ->].
  do 4 inv_bind Hload.
  inv_bind Hload as Eg. apply defined_Done_inv in Eg as [Hs ->].
  inv_bind Hload.
  inv_bind Hload as Eh. apply defined_Done_inv in Eh as [Hl ->].
  inv_bind Hload.
  injection Hload as <- _.
  unfold strcpy in Hs, Hl. case_decide; [|done]. case_decide; [|done].
  injection Hs as <-. injection Hl as <-.
  cbn [kernel mean n_theta n_mu log_filename k_name m_name crit_name surr_name l_type].
  split_and!; try done.
  intros name v Hin Hv. unfold array_fields in Hin.
  repeat (apply elem_of_cons in Hin as [-> | Hin]);
    [ destruct (Htheta v Hv) | destruct (Hstheta v Hv)
    | destruct (Hmu v Hv) | destruct (Hsmu v Hv) | by apply elem_of_nil in Hin ];
    (split; [done | by eexists]).
Qed.
End LoaderSteps.

(** ** The loader, run forward *)

Section LoaderRuns.
Context `{Target} `{Engine}.
Implicit Types (params : gmap string mxArray) (name : string) (t : list event).

Local Ltac run_scalar Hok :=
  rewrite bind_run;
  match goal with
  | |- context [struct_size ?p ?name ?r ?s] =>
      destruct (struct_size_ok p name r s) as (? & ? & ->);
      [apply Hok; compute_done|]
  | |- context [struct_value ?p ?name ?r ?s] =>
      destruct (struct_value_ok p name r s) as (? & ? & ->);
      [apply Hok; compute_done|]
  end;
  cbv beta iota.

Local Ltac run_array Hok :=
  rewrite bind_run;
  match goal with
  | |- context [struct_array ?p ?name ?n ?r ?s] =>
      destruct (struct_array_ok p name n r s Hok) as (? & ? & ->)
  end;
  cbv beta iota.

Lemma kernel_check_raises params t :
  let D := initialize_parameters_to_default in
  scalars_ok params = true ->
  array_field_ok (capacity_of "theta") params "theta" = true ->
  array_field_ok (capacity_of "s_theta") params "s_theta" = true ->
  field_count (n_theta (kernel D)) params "theta"
    <> field_count (n_theta (kernel D)) params "s_theta" ->
  exists t', load_parameters params t
             = Raised "Error processing kernel parameters" t'.
Proof.
  intros D Hs Ht Hst Hne.
  pose proof (fun name => scalars_ok_elim params name Hs) as Hok.
  unfold load_parameters. cbv zeta.
  do 7 run_scalar Hok.
  run_array Ht. run_array Hst.
  rewrite bind_run. unfold CHECK0.
  apply Z.eqb_neq in Hne. fold D. rewrite Hne. cbn [negb].
  unfold mexErrMsgTxt. eauto.
Qed.

Lemma mean_check_raises params t :
  let D := initialize_parameters_to_default in
  scalars_ok params = true ->
  array_field_ok (capacity_of "theta") params "theta" = true ->
  array_field_ok (capacity_of "s_theta") params "s_theta" = true ->
  field_count (n_theta (kernel D)) params "theta"
    = field_count (n_theta (kernel D)) params "s_theta" ->
  array_field_ok (capacity_of "mu") params "mu" = true ->
  array_field_ok (capacity_of "s_mu") params "s_mu" = true ->
  field_count (n_mu (mean D)) params "mu"
    <> field_count (n_mu (mean D)) params "s_mu" ->
  exists t', load_parameters params t
             = Raised "Error processing mean parameters" t'.
Proof.
  intros D Hs Ht Hst Heq Hm Hsm Hne.
  pose proof (fun name => scalars_ok_elim params name Hs) as Hok.
  unfold load_parameters. cbv zeta.
  do 7 run_scalar Hok.
  run_array Ht. run_array Hst.
  rewrite bind_run. unfold CHECK0 at 1.
  apply Z.eqb_eq in Heq. fold D. rewrite Heq. cbn [negb].
  unfold mret at 1, mex_ret. cbv beta iota.
  run_array Hm. run_array Hsm.
  rewrite bind_run. unfold CHECK0.
  apply Z.eqb_neq in Hne. rewrite Hne. cbn [negb].
  unfold mexErrMsgTxt. eauto.
Qed.
(** With well-formed scalar fields, an oversize [theta] takes the load
    straight to the out-of-bounds copy. *)
Lemma oversize_theta_undefined params t v :
  scalars_ok params = true ->
  params !! "theta" = Some v ->
  real_numeric v = true ->
  (capacity_of "theta" < Z.to_nat (element_count v))%nat ->
  element_count v < 2 ^ 61 ->
  load_parameters params t = Undefined.
Proof.
  intros Hs Hv Hreal Hcap Hsmall.
  pose proof (fun name => scalars_ok_elim params name Hs) as Hok.
  unfold load_parameters. cbv zeta.
  do 7 run_scalar Hok.
  rewrite bind_run.
  by rewrite (struct_array_overrun params "theta" _ _ _ v Hv Hreal Hcap Hsmall).
Qed.
End LoaderRuns.

(** ** The parameter loader *)

Section LoaderProperties.
Context `{Target} `{Engine}.
Implicit Types (params : gmap string mxArray) (name : string) (t : list event).

Local Ltac run_absent Habs :=
  rewrite bind_run;
  first [ rewrite struct_size_run | rewrite struct_value_run
        | rewrite struct_array_run | rewrite struct_string_run ];
  rewrite Habs by compute_done;
  cbv beta iota.

(** C1.  When every optional field is absent from the configuration,
    [load_parameters] returns the record of
    [initialize_parameters_to_default], field for field, and what it prints
    is one absence diagnostic per optional field, in reading order.  The
    engine's part: the names of the default surrogate and learning type
    fit the 100-character buffers and parse back to themselves. *)
Theorem load_parameters_defaults params t :
  (forall name, name ∈ optional_fields -> params !! name = None) ->
  (String.length (surrogate2str (surr_name initialize_parameters_to_default)) < 100)%nat ->
  (String.length (learn2str (l_type initialize_parameters_to_default)) < 100)%nat ->
  str2surrogate (surrogate2str (surr_name initialize_parameters_to_default))
    = surr_name initialize_parameters_to_default ->
  str2learn (learn2str (l_type initialize_parameters_to_default))
    = l_type initialize_parameters_to_default ->
  load_parameters params t
    = Done initialize_parameters_to_default
           (t ++ map absence_diagnostic optional_fields)%list.
Proof.
  intros Habs Hslen Hllen Hsurr Hlearn.
  unfold load_parameters. cbv zeta.
  do 9 run_absent Habs.
  rewrite bind_run. unfold CHECK0 at 1. rewrite Z.eqb_refl. cbn [negb].
  unfold mret at 1, mex_ret. cbv beta iota.
  do 2 run_absent Habs.
  rewrite bind_run. unfold CHECK0 at 1. rewrite Z.eqb_refl. cbn [negb].
  unfold mret at 1, mex_ret. cbv beta iota.
  do 4 run_absent Habs.
  rewrite bind_run. unfold defined at 1, strcpy at 1.
  rewrite decide_True by done. cbv beta iota.
  run_absent Habs.
  rewrite bind_run. unfold defined at 1, strcpy at 1.
  rewrite decide_True by done. cbv beta iota.
  run_absent Habs.
  unfold mret, mex_ret. rewrite Hsurr, Hlearn.
  f_equal.
  - by destruct initialize_parameters_to_default as [? ? ? ? ? ? ? [] [] ? ? ? ? ?].
  - cbn [emit trace_World]. by rewrite <- !app_assoc.
Qed.

(** C2, as the code has it.  An array field with more elements than its
    destination buffer holds meets no capacity check: [struct_array] hands
    the full element count to [memcpy], which runs past the end of the
    buffer; [load_parameters] returns no record, and what stops it is not
    a capacity error. *)
Theorem oversize_array_unchecked params t name v :
  name ∈ array_fields ->
  params !! name = Some v ->
  real_numeric v = true ->
  (capacity_of name < Z.to_nat (element_count v))%nat ->
  element_count v < 2 ^ 61 ->
  (forall n t0, struct_array params name n (buffer_of name) t0 = Undefined)
  /\ (forall p t', load_parameters params t <> Done p t')
  /\ ~ fails_with (load_parameters params t) CapacityError.
Proof.
  intros Hin Hv Hreal Hcap Hsmall. split_and!.
  - intros n t0. by eapply struct_array_overrun.
  - intros p t' Hload.
    apply load_parameters_Done_inv in Hload as (_ & Harr & _).
    destruct (Harr name v Hin Hv) as [_ [r Hcopy]].
    rewrite memcpy_overrun in Hcopy; [done | | done].
    pose proof (element_count_range v). lia.
  - intros (msg & t' & _ & Hkind). by apply error_kind_never_capacity in Hkind.
Qed.

(** C3, as the code has it.  Whatever the configuration holds, each text
    field of the record [load_parameters] returns is the default one, and
    each enumeration field is the default rendered to text and parsed
    back: the text [struct_string] extracts does not reach its caller. *)
Theorem string_fields_keep_defaults params t p t' :
  load_parameters params t = Done p t' ->
  log_filename p = log_filename initialize_parameters_to_default
  /\ k_name (kernel p) = k_name (kernel initialize_parameters_to_default)
  /\ m_name (mean p) = m_name (mean initialize_parameters_to_default)
  /\ crit_name p = crit_name initialize_parameters_to_default
  /\ surr_name p
     = str2surrogate (surrogate2str (surr_name initialize_parameters_to_default))
  /\ l_type p
     = str2learn (learn2str (l_type initialize_parameters_to_default)).
Proof.
  intros Hload. by apply load_parameters_Done_inv in Hload as (_ & _ & Htext).
Qed.

(** C5.  When [theta] and [s_theta] are both given and their element
    counts differ, [load_parameters] returns no record; and when the
    fields read before the check are well formed (the scalar fields are
    absent or real scalars, both arrays are real numeric and fit their
    buffers) it stops with the kernel message, a validation error. *)
Theorem unequal_theta_lengths params t a b :
  params !! "theta" = Some a ->
  params !! "s_theta" = Some b ->
  element_count a <> element_count b ->
  (forall p t', load_parameters params t <> Done p t')
  /\ (scalars_ok params = true ->
      real_array_within (capacity_of "theta") a = true ->
      real_array_within (capacity_of "s_theta") b = true ->
      fails_with (load_parameters params t) ValidationError).
Proof.
  intros Ha Hb Hne. split.
  - intros p t' Hload.
    apply load_parameters_Done_inv in Hload as ((_ & Hk & _) & _).
    unfold field_count in Hk. by rewrite Ha, Hb in Hk.
  - intros Hs Hfa Hfb.
    destruct (kernel_check_raises params t) as [t' Hraise];
      unfold array_field_ok, field_count; rewrite ?Ha, ?Hb; try done.
    by exists "Error processing kernel parameters", t'.
Qed.

(** C8.  The length check compares the length [struct_array] stored for
    [theta] with a local that still holds the default [n_theta] when
    [s_theta] is absent.  So a [theta] whose element count differs from
    the default [n_theta], given without [s_theta], makes
    [load_parameters] return no record, and stop at the kernel check when
    the fields read before it are well formed.  The same for [mu] without
    [s_mu] and the default [n_mu], once the kernel check has passed. *)
Theorem omitted_uncertainty_array params t :
  (forall a,
      params !! "theta" = Some a ->
      params !! "s_theta" = None ->
      element_count a <> n_theta (kernel initialize_parameters_to_default) ->
      (forall p t', load_parameters params t <> Done p t')
      /\ (scalars_ok params = true ->
          real_array_within (capacity_of "theta") a = true ->
          exists t', load_parameters params t
                     = Raised "Error processing kernel parameters" t'))
  /\ (forall m,
      params !! "mu" = Some m ->
      params !! "s_mu" = None ->
      element_count m <> n_mu (mean initialize_parameters_to_default) ->
      (forall p t', load_parameters params t <> Done p t')
      /\ (scalars_ok params = true ->
          array_field_ok (capacity_of "theta") params "theta" = true ->
          array_field_ok (capacity_of "s_theta") params "s_theta" = true ->
          field_count (n_theta (kernel initialize_parameters_to_default)) params "theta"
            = field_count (n_theta (kernel initialize_parameters_to_default))
                          params "s_theta" ->
          real_array_within (capacity_of "mu") m = true ->
          exists t', load_parameters params t
                     = Raised "Error processing mean parameters" t')).
Proof.
  split.
  - intros a Ha Hb Hne. split.
    + intros p t' Hload.
      apply load_parameters_Done_inv in Hload as ((_ & Hk & _) & _).
      unfold field_count in Hk. by rewrite Ha, Hb in Hk.
    + intros Hs Hfa.
      apply kernel_check_raises;
        unfold array_field_ok, field_count; rewrite ?Ha, ?Hb; done.
  - intros m Hm Hsm Hne. split.
    + intros p t' Hload.
      apply load_parameters_Done_inv in Hload as ((_ & _ & _ & Hk) & _).
      unfold field_count in Hk. by rewrite Hm, Hsm in Hk.
    + intros Hs Hta Hsta Hkeq Hfm.
      apply mean_check_raises; try done;
        unfold array_field_ok, field_count; rewrite ?Hm, ?Hsm; done.
Qed.
End LoaderProperties.

(** C10.  A count field that holds one real numeric scalar is stored as the
    cast of that scalar to [size_t], whatever the scalar is: [struct_size]
    raises nothing and prints nothing.  The cast drops the fraction; a
    scalar whose integral part is a [size_t] is stored as that integral
    part. *)
Theorem struct_size_unchecked_cast `{Target} (params : gmap string mxArray)
    (name : string) (v : mxArray) (r : Z) (t : list event) :
  params !! name = Some v ->
  real_scalar v = true ->
  struct_size params name r t = Done (size_t_of_double (mxGetScalar v)) t
  /\ (forall z, double_trunc (mxGetScalar v) = Some z -> 0 <= z < 2 ^ 64 ->
        size_t_of_double (mxGetScalar v) = z).
Proof.
  intros Hv Hscalar. split.
  - by rewrite struct_size_run, Hv, Hscalar.
  - intros z Hz Hrange. unfold size_t_of_double, SIZE_WIDTH. rewrite Hz.
    destruct (0 <=? z) eqn:H0; [|lia].
    destruct (z <? 2 ^ 64) eqn:H1; [done|lia].
Qed.

(** ** The objective-function bridge *)

Ltac bridge_unfold :=
  unfold user_function;
  cbv [mbind mex_bind mret mex_ret modify_data get_data defined CHECK0
       mexCallMATLAB mxDestroyArray mexPrintf mexErrMsgTxt emit bridge_World];
  cbn [data console plhs prhs xrhs nrhs f verbose neval
       set_plhs set_prhs set_neval].

Ltac bridge_cases := repeat (case_match; simplify_eq/=).

Lemma mxIsDouble_numeric a : mxIsDouble a = true -> mxIsNumeric a = true.
Proof. unfold mxIsDouble, mxIsNumeric. by destruct (mxGetClassID a). Qed.

Section BridgeProperties.
Context `{Host}.
Implicit Types (n : Z) (x : list double) (b : bridge).

Lemma counter_on_return n x g b r b' :
  user_function n x g b = Done r b' ->
  neval (data b') = int_incr (neval (data b)).
Proof. bridge_unfold. intros Hrun. bridge_cases; done. Qed.

Lemma counter_on_raise n x g b msg b' :
  user_function n x g b = Raised msg b' ->
  neval (data b') = neval (data b).
Proof. bridge_unfold. intros Hrun. bridge_cases; done. Qed.

(** C4, as the code has it.  The counter is incremented once, after the
    gradient step: a call that returns leaves it one higher, and a call
    that raises (also when it is the gradient validation that fails, the
    objective value having been read) leaves it as it was. *)
Theorem evaluation_counter n x g b :
  (forall r b', user_function n x g b = Done r b' ->
                neval (data b') = int_incr (neval (data b)))
  /\ (forall msg b', user_function n x g b = Raised msg b' ->
                     neval (data b') = neval (data b)).
Proof.
  split; [apply counter_on_return | apply counter_on_raise].
Qed.

(** C6.  With the gradient requested and the host call completed with
    results [r0] and [r1]: when [r1] is not a real numeric vector of [n]
    elements the call stops with a type error; and when the call returns,
    the gradient buffer holds the first [n] elements of [r1] followed by
    what it held from position [n] on. *)
Theorem gradient_result_checked n x g b arg pr r0 r1 :
  0 <= n < 2 ^ 32 ->
  array_get (prhs (data b)) (xrhs (data b)) = Some (Some arg) ->
  memcpy (mxGetPr arg) x (size_mul n sizeof_double) = Some pr ->
  host_call (console b) 2 (nrhs (data b))
            (array_set (prhs (data b)) (xrhs (data b)) (Some (with_pr pr arg)))
            (f (data b))
    = (0, (Some r0, Some r1)) ->
  (real_numeric_vector n r1 = false ->
   fails_with (user_function n x (Some g) b) TypeError)
  /\ (forall fv g' b', user_function n x (Some g) b = Done (fv, g') b' ->
        g' = Some (take (Z.to_nat n) (mxGetPr r1) ++ drop (Z.to_nat n) g)%list
        /\ (Z.to_nat n <= length (mxGetPr r1))%nat
        /\ (Z.to_nat n <= length g)%nat).
Proof.
  intros Hn Hslot Hcopy Hhost. split.
  - intros Hbad. unfold fails_with. bridge_unfold.
    rewrite Hslot, Hcopy. cbn [data console]. rewrite Hhost.
    cbn [Z.eqb negb data plhs set_plhs fst snd].
    destruct (mxIsNumeric r0 && negb (mxIsComplex r0)
              && (size_mul (mxGetM r0) (mxGetN r0) =? 1)); cbn [negb];
      [|by eexists _, _].
    destruct (mxIsDouble r1 && negb (mxIsComplex r1)
              && ((mxGetM r1 =? 1) || (mxGetN r1 =? 1))
              && (size_mul (mxGetM r1) (mxGetN r1) =? n)) eqn:Hcheck;
      cbn [negb]; [|by eexists _, _].
    exfalso. apply andb_prop in Hcheck as [Hcheck Hcount].
    apply andb_prop in Hcheck as [Hcheck Hvector].
    apply andb_prop in Hcheck as [Hdouble Hreal].
    unfold real_numeric_vector, real_numeric, element_count in Hbad.
    by rewrite (mxIsDouble_numeric _ Hdouble), Hreal, Hvector, Hcount in Hbad.
  - intros fv g' b'. bridge_unfold.
    rewrite Hslot, Hcopy. cbn [data console]. rewrite Hhost.
    cbn [Z.eqb negb data plhs set_plhs fst snd].
    intros Hrun. bridge_cases.
    all: match goal with
         | Hg : memcpy _ (mxGetPr _) _ = Some _ |- _ =>
             apply memcpy_exact in Hg as (-> & ? & ?); [done | lia]
         end.
Qed.

Lemma no_gradient_return n x b r b' :
  user_function n x None b = Done r b' ->
  r.2 = None
  /\ bridge_frame n x (data b) (data b')
  /\ exists evs, console b' = (console b ++ evs)%list
                 /\ results_requested evs = [1].
Proof.
  bridge_unfold. intros Hrun. bridge_cases.
  all: split_and!; [done | constructor; cbn; eauto | ].
  all: rewrite <- ?app_assoc; eexists; split; [reflexivity | done].
Qed.

Lemma no_gradient_raise n x b msg b' :
  user_function n x None b = Raised msg b' ->
  bridge_frame n x (data b) (data b')
  /\ exists evs, console b' = (console b ++ evs)%list
                 /\ results_requested evs = [1].
Proof.
  bridge_unfold. intros Hrun. bridge_cases.
  all: split_and!; [constructor; cbn; eauto | ].
  all: rewrite <- ?app_assoc; eexists; split; [reflexivity | done].
Qed.

(** C9.  A call with the null gradient pointer, whether it returns or
    raises: asks the host function for exactly one result; has no gradient
    buffer to give back; and changes nothing in the callback data but the
    storage of the argument at position [xrhs] (which receives the point),
    the two result slots and the counter. *)
Theorem no_gradient_frame n x b b' :
  left_behind (user_function n x None b) = Some b' ->
  bridge_frame n x (data b) (data b')
  /\ (exists evs, console b' = (console b ++ evs)%list
                  /\ results_requested evs = [1])
  /\ (forall fv g' b'', user_function n x None b = Done (fv, g') b'' ->
                        g' = None).
Proof.
  intros Hleft.
  assert (forall fv g' b'', user_function n x None b = Done (fv, g') b'' ->
                            g' = None) as Hgrad.
  { intros fv g' b'' Hrun. by apply no_gradient_return in Hrun as [? _]. }
  destruct (user_function n x None b) as [r b1|msg b1|] eqn:Hrun;
    cbn in Hleft; simplify_eq.
  - apply no_gradient_return in Hrun as (_ & ? & ?). done.
  - apply no_gradient_raise in Hrun as (? & ?). done.
Qed.
End BridgeProperties.

(** ** The surrogate-type enumeration *)

Lemma position_lookup (names : list string) (m : nat) (name : string) :
  NoDup names -> names !! m = Some name -> position name names = Some m.
Proof.
  intros Hnodup. revert m.
  induction Hnodup as [|first rest Hfresh Hnodup IH]; intros m Hm; [done|].
  cbn [position]. destruct m as [|m]; cbn in Hm.
  - injection Hm as ->. by rewrite decide_True.
  - rewrite decide_False.
    + by rewrite (IH m Hm).
    + intros ->. apply Hfresh. by eapply list_elem_of_lookup_2.
Qed.

(** C7.  In an enumeration whose members have pairwise distinct names,
    rendering a member to text and parsing the text back gives the member,
    for every member. *)
Theorem surrogate_round_trip (names : list string) (m : nat) :
  NoDup names ->
  valid_member names m ->
  text_to_surrogate_name names (surrogate_name_to_text names m) = Some m.
Proof.
  intros Hnodup Hvalid. unfold text_to_surrogate_name, surrogate_name_to_text.
  destruct (lookup_lt_is_Some_2 names m Hvalid) as [name Hname].
  rewrite Hname. cbn [default]. by apply position_lookup.
Qed.

(** * Runs on the sample engine *)

Section SampleRuns.
Import Sample.

(** C1 at a configuration whose only field is one the loader does not
    know. *)
Lemma load_parameters_defaults_witness :
  @load_parameters target engine config_unknown_only []
  = Done defaults (map absence_diagnostic optional_fields).
Proof.
  apply (@load_parameters_defaults target engine config_unknown_only []).
  - apply Forall_forall. compute_done.
  - compute_done.
  - compute_done.
  - reflexivity.
  - reflexivity.
Defined.

(** C2 fails at a [theta] of five elements for a buffer of four: the load
    neither raises a capacity error nor any other; it is undefined. *)
Lemma oversize_theta_no_capacity_error :
  config_long_theta !! "theta" = Some long_theta
  /\ real_numeric long_theta = true
  /\ (@capacity_of engine "theta" < Z.to_nat (element_count long_theta))%nat
  /\ @load_parameters target engine config_long_theta [] = Undefined
  /\ ~ fails_with (@load_parameters target engine config_long_theta [])
                  CapacityError.
Proof.
  assert (@load_parameters target engine config_long_theta [] = Undefined)
    as Hrun by (vm_compute; reflexivity).
  split_and!; [reflexivity | reflexivity | compute_done | exact Hrun |].
  rewrite Hrun. intros (msg & t' & Hraised & _). discriminate.
Defined.

Lemma oversize_array_unchecked_witness :
  (forall n t0,
      @struct_array _ _ config_long_theta "theta" n (@buffer_of engine "theta") t0
      = @Undefined (list event) _)
  /\ (forall p t', @load_parameters target engine config_long_theta [] <> Done p t')
  /\ ~ fails_with (@load_parameters target engine config_long_theta [])
                  CapacityError.
Proof.
  apply (@oversize_array_unchecked target engine config_long_theta []
                                   "theta" long_theta).
  - compute_done.
  - reflexivity.
  - reflexivity.
  - compute_done.
  - by vm_compute.
Defined.

(** C3 at a configuration that names the second surrogate type: the load
    succeeds and the record holds the first. *)
Lemma string_fields_keep_defaults_witness :
  exists p t',
    @load_parameters target engine config_surrogate [] = Done p t'
    /\ text_to_surrogate_name surrogate_names "STUDENT_T_PROCESS" = Some 1%nat
    /\ surr_name p = 0%nat.
Proof.
  destruct (@load_parameters target engine config_surrogate [])
    as [p t'|msg t'|] eqn:Hrun;
    [|by vm_compute in Hrun|by vm_compute in Hrun].
  exists p, t'. split_and!; [done | reflexivity |].
  destruct (@string_fields_keep_defaults target engine config_surrogate []
                                         p t' Hrun)
    as (_ & _ & _ & _ & Hsurr & _).
  exact Hsurr.
Defined.

(** C4 fails at a call whose gradient result has two elements for a point
    of dimension three: the objective value has been read and released,
    the gradient validation raises a type error, and the counter stands
    where it stood. *)
Lemma counter_unchanged_on_gradient_failure :
  exists b',
    @user_function (host_returning [zero; zero]) 3 point
                   (Some [zero; zero; zero]) start
    = Raised "gradient vector from user function is the wrong size" b'
    /\ error_kind "gradient vector from user function is the wrong size"
       = Some TypeError
    /\ EvDestroyArray (mx_scalar d4_2) ∈ console b'
    /\ neval (data b') = neval (data start)
    /\ neval (data b') <> int_incr (neval (data start)).
Proof.
  eexists. split; [vm_compute; reflexivity|].
  split_and!; [reflexivity | | reflexivity | by vm_compute].
  apply list_elem_of_In. cbn. auto.
Defined.

Lemma evaluation_counter_witness :
  counter_after (@user_function (host_returning []) 3 point None start)
  = Some 8
  /\ counter_after (@user_function (host_returning [zero; zero]) 3 point
                                   (Some [zero; zero; zero]) start)
     = Some 7.
Proof.
  split.
  - destruct (@user_function (host_returning []) 3 point None start)
      as [r b'|msg b'|] eqn:Hrun;
      [|by vm_compute in Hrun|by vm_compute in Hrun].
    cbn [counter_after].
    by rewrite (proj1 (@evaluation_counter (host_returning []) 3 point
                                           None start) r b' Hrun).
  - destruct (@user_function (host_returning [zero; zero]) 3 point
                             (Some [zero; zero; zero]) start)
      as [r b'|msg b'|] eqn:Hrun;
      [by vm_compute in Hrun| |by vm_compute in Hrun].
    cbn [counter_after].
    by rewrite (proj2 (@evaluation_counter (host_returning [zero; zero]) 3
                                           point (Some [zero; zero; zero])
                                           start) msg b' Hrun).
Defined.

Lemma unequal_theta_lengths_witness :
  (forall p t', @load_parameters target engine config_unequal [] <> Done p t')
  /\ fails_with (@load_parameters target engine config_unequal [])
                ValidationError.
Proof.
  destruct (@unequal_theta_lengths target engine config_unequal []
              (mx_row [dbl 1 0; dbl 1 1]) (mx_row [dbl 1 (-3)]))
    as [Hnone Hfails]; [reflexivity | reflexivity | by vm_compute |].
  split; [exact Hnone|].
  apply Hfails; reflexivity.
Defined.

(** C6 at a second result of two elements for a point of dimension three,
    and at one of three elements. *)
Lemma gradient_result_checked_witness :
  fails_with (@user_function (host_returning [zero; zero]) 3 point
                             (Some [zero; zero; zero]) start) TypeError
  /\ exists fv b',
       @user_function (host_returning [dbl 1 0; dbl 1 1; dbl 1 2]) 3 point
                      (Some [zero; zero; zero]) start
       = Done (fv, Some [dbl 1 0; dbl 1 1; dbl 1 2]) b'.
Proof.
  split.
  - refine (proj1 (@gradient_result_checked
                     (host_returning [zero; zero]) 3 point [zero; zero; zero]
                     start (mx_double 3 1 [zero; zero; zero]) point
                     (mx_scalar d4_2) (mx_row [zero; zero]) _ _ _ _) _);
      [lia | reflexivity..].
  - destruct (@user_function (host_returning [dbl 1 0; dbl 1 1; dbl 1 2]) 3
                             point (Some [zero; zero; zero]) start)
      as [[fv g'] b'|msg b'|] eqn:Hrun;
      [|by vm_compute in Hrun|by vm_compute in Hrun].
    exists fv, b'.
    destruct (proj2 (@gradient_result_checked
                       (host_returning [dbl 1 0; dbl 1 1; dbl 1 2]) 3 point
                       [zero; zero; zero] start
                       (mx_double 3 1 [zero; zero; zero]) point
                       (mx_scalar d4_2) (mx_row [dbl 1 0; dbl 1 1; dbl 1 2])
                       ltac:(lia) eq_refl eq_refl eq_refl) fv g' b' Hrun)
      as (-> & _ & _).
    reflexivity.
Defined.

Lemma surrogate_round_trip_witness :
  text_to_surrogate_name surrogate_names
    (surrogate_name_to_text surrogate_names 1) = Some 1%nat.
Proof.
  apply surrogate_round_trip.
  - compute_done.
  - unfold valid_member. compute_done.
Defined.

(** C8 at a [theta] of two elements (the default length is one) without
    [s_theta], and at a [mu] of two elements without [s_mu]. *)
Lemma omitted_uncertainty_array_witness :
  (exists t', @load_parameters target engine config_theta_only []
              = Raised "Error processing kernel parameters" t')
  /\ (exists t', @load_parameters target engine config_mu_only []
                 = Raised "Error processing mean parameters" t').
Proof.
  split.
  - refine (proj2 (proj1 (@omitted_uncertainty_array target engine
                            config_theta_only [])
                         (mx_row [dbl 1 0; dbl 1 1]) eq_refl eq_refl _)
                  eq_refl eq_refl).
    by vm_compute.
  - refine (proj2 (proj2 (@omitted_uncertainty_array target engine
                            config_mu_only [])
                         (mx_row [dbl 1 0; dbl 1 1]) eq_refl eq_refl _)
                  eq_refl eq_refl eq_refl eq_refl eq_refl).
    by vm_compute.
Defined.

(** C9 at a call that returns 4.2 for a point of dimension three: one
    evaluation more. *)
Lemma no_gradient_frame_witness :
  exists b',
    @user_function (host_returning []) 3 point None start
    = Done (d4_2, None) b'
    /\ neval (data b') = 8
    /\ bridge_frame 3 point (data start) (data b')
    /\ (exists evs, console b' = (console start ++ evs)%list
                    /\ results_requested evs = [1]).
Proof.
  destruct (@user_function (host_returning []) 3 point None start)
    as [r b'|msg b'|] eqn:Hrun;
    [|by vm_compute in Hrun|by vm_compute in Hrun].
  exists b'.
  destruct (@no_gradient_frame (host_returning []) 3 point start b')
    as (Hframe & Hcalls & _); [by rewrite Hrun|].
  vm_compute in Hrun. injection Hrun as <- <-.
  split_and!; [reflexivity | reflexivity | exact Hframe | exact Hcalls].
Defined.

(** C10 at the budgets 2.75 and -0.5: stored as 2 and as 0. *)
Lemma struct_size_unchecked_cast_witness :
  @struct_size _ _ target config_fraction "n_iterations" 300 ([] : list event)
  = Done 2 []
  /\ @struct_size _ _ target config_negative "n_iterations" 300 ([] : list event)
     = Done 0 [].
Proof.
  split.
  - exact (proj1 (@struct_size_unchecked_cast target config_fraction
                    "n_iterations" (mx_scalar (dbl 11 (-2))) 300 []
                    eq_refl eq_refl)).
  - exact (proj1 (@struct_size_unchecked_cast target config_negative
                    "n_iterations" (mx_scalar (neg 1 (-1))) 300 []
                    eq_refl eq_refl)).
Defined.
End SampleRuns.


(** * The whole of a load *)

Lemma bind_Raised_inv {S A B} (m : mex S A) (k : A -> mex S B) s msg s2 :
  (m ≫= k) s = Raised msg s2 ->
  m s = Raised msg s2 \/ exists a s1, m s = Done a s1 /\ k a s1 = Raised msg s2.
Proof.
  rewrite bind_run. destruct (m s) as [a s1|msg1 s1|];
    [|by (intros [= -> ->]; left)|done].
  intros Hk. right. by exists a, s1.
Qed.

Lemma bind_defined {S A B} (m : mex S A) (k : A -> mex S B) s :
  m s <> Undefined ->
  (forall a s1, m s = Done a s1 -> k a s1 <> Undefined) ->
  (m ≫= k) s <> Undefined.
Proof.
  intros Hm Hk. rewrite bind_run.
  destruct (m s) as [a s1|msg s1|]; [by apply Hk | done | done].
Qed.

Lemma memcpy_length dst src bytes r :
  memcpy dst src bytes = Some r -> length r = length dst.
Proof.
  unfold memcpy. case_decide as Hk; [|done]. intros [= <-].
  rewrite length_app, length_take, length_drop. lia.
Qed.

Section AccessorOutcomes.
Context {S : Type} `{World S} `{Target}.
Implicit Types (params : gmap string mxArray) (name : string) (s : S).

Lemma struct_size_Done_full params name r s r' s' :
  struct_size params name r s = Done r' s' ->
  r' = field_size r params name
  /\ s' = after_field params name s
  /\ scalar_field_ok params name = true.
Proof.
  rewrite struct_size_run. unfold field_size, after_field, scalar_field_ok.
  destruct (params !! name) as [v|]; [|by intros [= <- <-]].
  destruct (real_scalar v); [by intros [= <- <-] | done].
Qed.

Lemma struct_value_Done_full params name r s r' s' :
  struct_value params name r s = Done r' s' ->
  r' = field_value r params name
  /\ s' = after_field params name s
  /\ scalar_field_ok params name = true.
Proof.
  rewrite struct_value_run. unfold field_value, after_field, scalar_field_ok.
  destruct (params !! name) as [v|]; [|by intros [= <- <-]].
  destruct (real_scalar v); [by intros [= <- <-] | done].
Qed.

Lemma struct_array_Done_full params name n result s n' r' s' :
  struct_array params name n result s = Done (n', r') s' ->
  n' = field_count n params name
  /\ s' = after_field params name s
  /\ array_loaded result params name r'.
Proof.
  rewrite struct_array_run. unfold field_count, after_field, array_loaded.
  destruct (params !! name) as [v|]; [|by intros [= <- <- <-]].
  destruct (real_numeric v); [|done].
  destruct (memcpy _ _ _) as [r|]; [by intros [= <- <- <-] | done].
Qed.

Lemma struct_string_Done_full params name result s u s' :
  struct_string params name result s = Done u s' ->
  s' = after_field params name s /\ string_field_ok params name = true.
Proof.
  rewrite struct_string_run. unfold after_field, string_field_ok.
  destruct (params !! name) as [v|]; [|by intros [= <-]].
  destruct (mxIsChar v); [by intros [= <-] | done].
Qed.

Lemma struct_string_ok params name result s :
  string_field_ok params name = true ->
  exists s', struct_string params name result s = Done tt s'.
Proof.
  intros Hok. rewrite struct_string_run. unfold string_field_ok in Hok.
  destruct (params !! name) as [v|]; [rewrite Hok|]; eauto.
Qed.

Lemma struct_size_Raised params name r s msg s' :
  struct_size params name r s = Raised msg s' ->
  msg = "param fields must be real scalars".
Proof.
  rewrite struct_size_run. destruct (params !! name) as [v|]; [|done].
  destruct (real_scalar v); [done | by intros [= <- _]].
Qed.

Lemma struct_value_Raised params name r s msg s' :
  struct_value params name r s = Raised msg s' ->
  msg = "param fields must be real scalars".
Proof.
  rewrite struct_value_run. destruct (params !! name) as [v|]; [|done].
  destruct (real_scalar v); [done | by intros [= <- _]].
Qed.

Lemma struct_array_Raised params name n result s msg s' :
  struct_array params name n result s = Raised msg s' ->
  msg = "Param fields must be vector".
Proof.
  rewrite struct_array_run. destruct (params !! name) as [v|]; [|done].
  destruct (real_numeric v); [by destruct (memcpy _ _ _) | by intros [= <- _]].
Qed.

Lemma struct_string_Raised params name result s msg s' :
  struct_string params name result s = Raised msg s' ->
  msg = "Method name must be a string".
Proof.
  rewrite struct_string_run. destruct (params !! name) as [v|]; [|done].
  destruct (mxIsChar v); [done | by intros [= <- _]].
Qed.

Lemma CHECK0_Raised cond msg0 s msg s' :
  CHECK0 cond msg0 s = Raised msg s' -> msg = msg0.
Proof. unfold CHECK0. destruct cond; [done | by intros [= <- _]]. Qed.

Lemma defined_Raised {A} (o : option A) s msg s' :
  defined o s = Raised msg s' -> False.
Proof. unfold defined. by destruct o. Qed.

Lemma struct_size_defined params name r s :
  struct_size params name r s <> Undefined.
Proof.
  rewrite struct_size_run. destruct (params !! name) as [v|]; [|done].
  by destruct (real_scalar v).
Qed.

Lemma struct_value_defined params name r s :
  struct_value params name r s <> Undefined.
Proof.
  rewrite struct_value_run. destruct (params !! name) as [v|]; [|done].
  by destruct (real_scalar v).
Qed.

Lemma struct_string_defined params name result s :
  struct_string params name result s <> Undefined.
Proof.
  rewrite struct_string_run. destruct (params !! name) as [v|]; [|done].
  by destruct (mxIsChar v).
Qed.

Lemma CHECK0_defined cond msg s : CHECK0 cond msg s <> Undefined.
Proof. unfold CHECK0. by destruct cond. Qed.
End AccessorOutcomes.

(** The diagnostics of a run over a list of fields. *)
Lemma foldl_after_field (params : gmap string mxArray) (names : list string)
    (t : list event) :
  foldl (fun s name => after_field params name s) t names
  = (t ++ map absence_diagnostic
            (filter (fun name => params !! name = None) names))%list.
Proof.
  revert t. induction names as [|name names IH]; intros t.
  - cbn. by rewrite app_nil_r.
  - cbn [foldl]. rewrite IH. unfold after_field.
    destruct (params !! name) as [v|] eqn:Hname.
    + by rewrite filter_cons_False by (by rewrite Hname).
    + rewrite filter_cons_True by done. cbn [emit trace_World map].
      by rewrite <- app_assoc.
Qed.

Ltac split_result a :=
  lazymatch type of a with
  | (_ * _)%type => destruct a
  | unit => destruct a
  | _ => idtac
  end.

Ltac loader_message :=
  subst; split; [compute_done | first [by left | by right]].

Ltac inv_raise H :=
  let a := fresh "a" in
  let s := fresh "s" in
  let E := fresh "E" in
  apply bind_Raised_inv in H as [H | (a & s & E & H)];
  [ first [ apply struct_size_Raised in H | apply struct_value_Raised in H
          | apply struct_array_Raised in H | apply struct_string_Raised in H
          | apply CHECK0_Raised in H
          | by apply defined_Raised in H ];
    loader_message
  | split_result a; cbv beta iota zeta in H ].

Ltac step_defined :=
  apply bind_defined;
  [ first [ apply struct_size_defined | apply struct_value_defined
          | apply struct_string_defined | apply CHECK0_defined
          | match goal with
            | |- struct_array ?p ?name ?n ?r ?s <> _ =>
                destruct (struct_array_ok p name n r s) as (? & ? & ->);
                [assumption | done]
            end
          | unfold defined, strcpy; rewrite decide_True by done; done ]
  | let a := fresh "a" in
    intros a ? _; split_result a; cbv beta iota zeta ].

Ltac run_scalar_ok Hok :=
  rewrite bind_run;
  match goal with
  | |- context [struct_size ?p ?name ?r ?s] =>
      destruct (struct_size_ok p name r s) as (? & ? & ->);
      [apply Hok; compute_done|]
  | |- context [struct_value ?p ?name ?r ?s] =>
      destruct (struct_value_ok p name r s) as (? & ? & ->);
      [apply Hok; compute_done|]
  end;
  cbv beta iota.

Ltac run_array_ok Hok :=
  rewrite bind_run;
  match goal with
  | |- context [struct_array ?p ?name ?n ?r ?s] =>
      destruct (struct_array_ok p name n r s Hok) as (? & ? & ->)
  end;
  cbv beta iota.

Ltac run_string_ok Hok :=
  rewrite bind_run;
  match goal with
  | |- context [struct_string ?p ?name ?r ?s] =>
      destruct (struct_string_ok p name r s) as (? & ->);
      [apply Hok; compute_done|]
  end;
  cbv beta iota.

Ltac run_check_ok Heq :=
  rewrite bind_run; unfold CHECK0 at 1; rewrite Heq; cbn [negb];
  unfold mret at 1, mex_ret; cbv beta iota.

Ltac run_strcpy_ok :=
  rewrite bind_run; unfold defined at 1, strcpy at 1;
  rewrite decide_True by done; cbv beta iota.

Section LoaderWhole.
Context `{Target} `{Engine}.
Implicit Types (params : gmap string mxArray) (name : string) (t : list event).

Lemma strings_ok_elim params name :
  strings_ok params = true ->
  name ∈ string_fields ->
  string_field_ok params name = true.
Proof.
  unfold strings_ok. rewrite forallb_forall. intros Hall Hin.
  apply Hall. by apply list_elem_of_In.
Qed.

(** A successful load, in full. *)
Lemma load_parameters_Done_full params t p t' :
  load_parameters params t = Done p t' ->
  let D := initialize_parameters_to_default in
  (n_iterations p = field_size (n_iterations D) params "n_iterations"
   /\ n_inner_iterations p
      = field_size (n_inner_iterations D) params "n_inner_iterations"
   /\ n_init_samples p = field_size (n_init_samples D) params "n_init_iterations"
   /\ verbose_level p = field_size (verbose_level D) params "verbose_level"
   /\ alpha p = field_value (alpha D) params "alpha"
   /\ beta p = field_value (beta D) params "beta"
   /\ noise p = field_value (noise D) params "noise")
  /\ (array_loaded (theta (kernel D)) params "theta" (theta (kernel p))
      /\ array_loaded (s_theta (kernel D)) params "s_theta" (s_theta (kernel p))
      /\ array_loaded (mu (mean D)) params "mu" (mu (mean p))
      /\ array_loaded (s_mu (mean D)) params "s_mu" (s_mu (mean p)))
  /\ (scalars_ok params = true /\ strings_ok params = true)
  /\ ((String.length (surrogate2str (surr_name D)) < 100)%nat
      /\ (String.length (learn2str (l_type D)) < 100)%nat)
  /\ other p = other D
  /\ t' = foldl (fun s name => after_field params name s) t optional_fields.
Proof.
  intros Hload D. unfold load_parameters in Hload. cbv zeta in Hload.
  inv_bind Hload as E1. apply struct_size_Done_full in E1 as (-> & -> & Hf1).
  inv_bind Hload as E2. apply struct_size_Done_full in E2 as (-> & -> & Hf2).
  inv_bind Hload as E3. apply struct_size_Done_full in E3 as (-> & -> & Hf3).
  inv_bind Hload as E4. apply struct_size_Done_full in E4 as (-> & -> & Hf4).
  inv_bind Hload as E5. apply struct_value_Done_full in E5 as (-> & -> & Hf5).
  inv_bind Hload as E6. apply struct_value_Done_full in E6 as (-> & -> & Hf6).
  inv_bind Hload as E7. apply struct_value_Done_full in E7 as (-> & -> & Hf7).
  inv_bind Hload as Ea. apply struct_array_Done_full in Ea as (-> & -> & Hth).
  inv_bind Hload as Eb. apply struct_array_Done_full in Eb as (-> & -> & Hsth).
  inv_bind Hload as Ec. apply CHECK0_Done_inv in Ec as [_ ->].
  inv_bind Hload as Ed. apply struct_array_Done_full in Ed as (-> & -> & Hmu).
  inv_bind Hload as Ee. apply struct_array_Done_full in Ee as (-> & -> & Hsmu).
  inv_bind Hload as Ef. apply CHECK0_Done_inv in Ef as [_ ->].
  inv_bind Hload as S1. apply struct_string_Done_full in S1 as (-> & Hs1).
  inv_bind Hload as S2. apply struct_string_Done_full in S2 as (-> & Hs2).
  inv_bind Hload as S3. apply struct_string_Done_full in S3 as (-> & Hs3).
  inv_bind Hload as S4. apply struct_string_Done_full in S4 as (-> & Hs4).
  inv_bind Hload as Eg. apply defined_Done_inv in Eg as [Hs ->].
  inv_bind Hload as S5. apply struct_string_Done_full in S5 as (-> & Hs5).
  inv_bind Hload as Eh. apply defined_Done_inv in Eh as [Hl ->].
  inv_bind Hload as S6. apply struct_string_Done_full in S6 as (-> & Hs6).
  injection Hload as <- <-.
  unfold strcpy in Hs, Hl. case_decide; [|done]. case_decide; [|done].
  cbn [n_iterations n_inner_iterations n_init_samples verbose_level alpha beta
       noise kernel mean theta s_theta mu s_mu other].
  split_and!; try done.
  - unfold scalars_ok. cbn [forallb app size_fields value_fields].
    by rewrite Hf1, Hf2, Hf3, Hf4, Hf5, Hf6, Hf7.
  - unfold strings_ok. cbn [forallb string_fields].
    by rewrite Hs1, Hs2, Hs3, Hs4, Hs5, Hs6.
Qed.

(** X1.  In the record a load returns, each count field is the cast of the
    scalar the configuration gives for it and each real field is that
    scalar itself; a field the configuration does not give keeps the
    default. *)
Theorem loaded_scalars params t p t' :
  load_parameters params t = Done p t' ->
  n_iterations p
    = field_size (n_iterations initialize_parameters_to_default) params "n_iterations"
  /\ n_inner_iterations p
     = field_size (n_inner_iterations initialize_parameters_to_default)
                  params "n_inner_iterations"
  /\ n_init_samples p
     = field_size (n_init_samples initialize_parameters_to_default)
                  params "n_init_iterations"
  /\ verbose_level p
     = field_size (verbose_level initialize_parameters_to_default)
                  params "verbose_level"
  /\ alpha p = field_value (alpha initialize_parameters_to_default) params "alpha"
  /\ beta p = field_value (beta initialize_parameters_to_default) params "beta"
  /\ noise p = field_value (noise initialize_parameters_to_default) params "noise".
Proof.
  intros Hload. by apply load_parameters_Done_full in Hload as (Hscalars & _).
Qed.

(** X2.  A count or real field that is present and is not one real numeric
    scalar stops the load with the scalar message, whatever else the
    configuration holds. *)
Theorem malformed_scalar_is_fatal params t name :
  name ∈ (size_fields ++ value_fields)%list ->
  scalar_field_ok params name = false ->
  exists t', load_parameters params t
             = Raised "param fields must be real scalars" t'.
Proof.
  intros Hin Hbad. unfold load_parameters. cbv zeta.
  assert (forall (k : string) (r : Z) (s : list event),
             (exists r' s', struct_size params k r s = Done r' s'
                            /\ scalar_field_ok params k = true)
             \/ (struct_size params k r s
                 = Raised "param fields must be real scalars" s)) as Hsize.
  { intros k r s. rewrite struct_size_run. unfold scalar_field_ok.
    destruct (params !! k) as [v|]; [destruct (real_scalar v)|]; eauto. }
  assert (forall (k : string) (r : double) (s : list event),
             (exists r' s', struct_value params k r s = Done r' s'
                            /\ scalar_field_ok params k = true)
             \/ (struct_value params k r s
                 = Raised "param fields must be real scalars" s)) as Hvalue.
  { intros k r s. rewrite struct_value_run. unfold scalar_field_ok.
    destruct (params !! k) as [v|]; [destruct (real_scalar v)|]; eauto. }
  repeat
    (rewrite bind_run;
     match goal with
     | |- context [struct_size params ?k ?r ?s] =>
         destruct (Hsize k r s) as [(? & ? & -> & ?) | ->]; [|by eauto]
     | |- context [struct_value params ?k ?r ?s] =>
         destruct (Hvalue k r s) as [(? & ? & -> & ?) | ->]; [|by eauto]
     end;
     cbv beta iota).
  exfalso. unfold size_fields, value_fields in Hin. cbn [app] in Hin.
  repeat (apply elem_of_cons in Hin as [-> | Hin]; [congruence|]).
  by apply elem_of_nil in Hin.
Qed.
End LoaderWhole.

Section LoaderArrays.
Context `{Target} `{Engine}.
Implicit Types (params : gmap string mxArray) (name : string) (t : list event).

Lemma array_loaded_in params t p t' name :
  load_parameters params t = Done p t' ->
  name ∈ array_fields ->
  array_loaded (buffer_of name) params name (array_in p name).
Proof.
  intros Hload Hin.
  apply load_parameters_Done_full in Hload
    as (_ & (Hth & Hsth & Hmu & Hsmu) & _).
  unfold array_fields in Hin.
  repeat (apply elem_of_cons in Hin as [-> | Hin]; [done|]).
  by apply elem_of_nil in Hin.
Qed.

(** X3.  In the record a load returns, the buffer of an array field the
    configuration gives (with fewer than 2^61 elements) holds the elements
    of the array, followed by what the default buffer held beyond them, and
    the array is no longer than the buffer; the buffer of an array field the
    configuration does not give is the default one.  The lengths stored
    with [theta] and [mu] are the element counts of the arrays given, or
    the defaults. *)
Theorem loaded_arrays params t p t' :
  load_parameters params t = Done p t' ->
  (forall name, name ∈ array_fields ->
     (params !! name = None -> array_in p name = buffer_of name)
     /\ (forall v, params !! name = Some v -> element_count v < 2 ^ 61 ->
           array_in p name
           = (take (Z.to_nat (element_count v)) (mxGetPr v)
              ++ drop (Z.to_nat (element_count v)) (buffer_of name))%list
           /\ (Z.to_nat (element_count v) <= capacity_of name)%nat))
  /\ n_theta (kernel p)
     = field_count (n_theta (kernel initialize_parameters_to_default)) params "theta"
  /\ n_mu (mean p)
     = field_count (n_mu (mean initialize_parameters_to_default)) params "mu".
Proof.
  intros Hload. split.
  - intros name Hin.
    pose proof (array_loaded_in params t p t' name Hload Hin) as Hloaded.
    unfold array_loaded in Hloaded. split.
    + intros Hnone. by rewrite Hnone in Hloaded.
    + intros v Hv Hsmall. rewrite Hv in Hloaded. destruct Hloaded as [_ Hcopy].
      apply memcpy_exact in Hcopy as (-> & _ & ?); [done|].
      pose proof (element_count_range v). lia.
  - apply load_parameters_Done_inv in Hload as ((? & _ & ? & _) & _). done.
Qed.

(** X4.  A load never changes the capacity of a buffer: each of the four
    arrays of the record it returns is as long as in the default record. *)
Theorem buffers_keep_capacity params t p t' name :
  load_parameters params t = Done p t' ->
  name ∈ array_fields ->
  length (array_in p name) = capacity_of name.
Proof.
  intros Hload Hin.
  pose proof (array_loaded_in params t p t' name Hload Hin) as Hloaded.
  unfold array_loaded in Hloaded. unfold capacity_of.
  destruct (params !! name) as [v|].
  - destruct Hloaded as [_ Hcopy]. by apply memcpy_length in Hcopy.
  - by rewrite Hloaded.
Qed.

(** X5.  What a successful load prints is one absence diagnostic for each
    optional field the configuration does not have, in reading order, and
    nothing else. *)
Theorem diagnostics_name_the_absent_fields params t p t' :
  load_parameters params t = Done p t' ->
  t' = (t ++ map absence_diagnostic (absent_fields params))%list.
Proof.
  intros Hload.
  apply load_parameters_Done_full in Hload as (_ & _ & _ & _ & _ & ->).
  apply foldl_after_field.
Qed.

(** X6.  A load returns a record only if every optional field that is
    present has the kind its accessor asks for: the count and real fields
    are real numeric scalars, the array fields real numeric arrays, the
    text fields char arrays. *)
Theorem loaded_fields_are_well_typed params t p t' :
  load_parameters params t = Done p t' ->
  (forall name v, name ∈ (size_fields ++ value_fields)%list ->
                  params !! name = Some v -> real_scalar v = true)
  /\ (forall name v, name ∈ array_fields ->
                     params !! name = Some v -> real_numeric v = true)
  /\ (forall name v, name ∈ string_fields ->
                     params !! name = Some v -> mxIsChar v = true).
Proof.
  intros Hload.
  pose proof Hload as Hfull.
  apply load_parameters_Done_full in Hfull as (_ & _ & (Hsc & Hst) & _).
  split_and!.
  - intros name v Hin Hv.
    pose proof (scalars_ok_elim params name Hsc Hin) as Hok.
    unfold scalar_field_ok in Hok. by rewrite Hv in Hok.
  - intros name v Hin Hv.
    pose proof (array_loaded_in params t p t' name Hload Hin) as Hloaded.
    unfold array_loaded in Hloaded. rewrite Hv in Hloaded. tauto.
  - intros name v Hin Hv.
    pose proof (strings_ok_elim params name Hst Hin) as Hok.
    unfold string_field_ok in Hok. by rewrite Hv in Hok.
Qed.

(** X7.  A configuration loads when its present fields are of the right
    kinds, its arrays fit their buffers, the lengths left by [theta] and
    [s_theta] agree and so do those left by [mu] and [s_mu], and the engine
    renders its default surrogate and learning types in fewer than 100
    characters. *)
Theorem well_formed_configuration_loads params t :
  scalars_ok params = true ->
  (forall name, name ∈ array_fields ->
                array_field_ok (capacity_of name) params name = true) ->
  field_count (n_theta (kernel initialize_parameters_to_default)) params "theta"
    = field_count (n_theta (kernel initialize_parameters_to_default))
                  params "s_theta" ->
  field_count (n_mu (mean initialize_parameters_to_default)) params "mu"
    = field_count (n_mu (mean initialize_parameters_to_default)) params "s_mu" ->
  strings_ok params = true ->
  (String.length (surrogate2str (surr_name initialize_parameters_to_default)) < 100)%nat ->
  (String.length (learn2str (l_type initialize_parameters_to_default)) < 100)%nat ->
  exists p t', load_parameters params t = Done p t'.
Proof.
  intros Hs Harr Hk Hm Hstr Hslen Hllen.
  pose proof (fun name => scalars_ok_elim params name Hs) as Hok.
  pose proof (fun name => strings_ok_elim params name Hstr) as Hsok.
  pose proof (Harr "theta" ltac:(compute_done)) as Hth.
  pose proof (Harr "s_theta" ltac:(compute_done)) as Hsth.
  pose proof (Harr "mu" ltac:(compute_done)) as Hmu.
  pose proof (Harr "s_mu" ltac:(compute_done)) as Hsmu.
  apply Z.eqb_eq in Hk, Hm.
  unfold load_parameters. cbv zeta.
  do 7 run_scalar_ok Hok.
  run_array_ok Hth. run_array_ok Hsth. run_check_ok Hk.
  run_array_ok Hmu. run_array_ok Hsmu. run_check_ok Hm.
  do 4 run_string_ok Hsok.
  run_strcpy_ok. run_string_ok Hsok.
  run_strcpy_ok. run_string_ok Hsok.
  unfold mret, mex_ret. eauto.
Qed.

(** X8.  Fields other than the seventeen optional ones are ignored: two
    configurations that agree on the optional fields load alike. *)
Theorem unknown_fields_are_ignored params params' t :
  (forall name, name ∈ optional_fields -> params !! name = params' !! name) ->
  load_parameters params t = load_parameters params' t.
Proof.
  intros Hagree.
  unfold load_parameters, struct_size, struct_value, struct_array,
    struct_string, mxGetField.
  cbn [Z.eqb].
  rewrite (Hagree "n_iterations"), (Hagree "n_inner_iterations"),
    (Hagree "n_init_iterations"), (Hagree "verbose_level"),
    (Hagree "alpha"), (Hagree "beta"), (Hagree "noise"),
    (Hagree "theta"), (Hagree "s_theta"), (Hagree "mu"), (Hagree "s_mu"),
    (Hagree "log_filename"), (Hagree "kernel_name"), (Hagree "mean_name"),
    (Hagree "crit_name"), (Hagree "surr_name"), (Hagree "l_type")
    by compute_done.
  reflexivity.
Qed.

(** X9.  Whatever stops a load with a message, the message is one of the
    five the loader and its accessors have, so the error is a type error or
    a validation error. *)
Theorem loader_errors params t msg t' :
  load_parameters params t = Raised msg t' ->
  msg ∈ loader_messages
  /\ (error_kind msg = Some TypeError \/ error_kind msg = Some ValidationError).
Proof.
  intros Hload. unfold load_parameters in Hload. cbv zeta in Hload.
  do 21 (inv_raise Hload).
  discriminate Hload.
Qed.

(** X10.  When the arrays the configuration gives fit their buffers and the
    engine renders its default surrogate and learning types in fewer than
    100 characters, a load stays within what C defines: it returns a record
    or stops with a message. *)
Theorem load_within_bounds_is_defined params t :
  (forall name, name ∈ array_fields ->
                array_field_ok (capacity_of name) params name = true) ->
  (String.length (surrogate2str (surr_name initialize_parameters_to_default)) < 100)%nat ->
  (String.length (learn2str (l_type initialize_parameters_to_default)) < 100)%nat ->
  load_parameters params t <> Undefined.
Proof.
  intros Harr Hslen Hllen.
  pose proof (Harr "theta" ltac:(compute_done)) as Hth.
  pose proof (Harr "s_theta" ltac:(compute_done)) as Hsth.
  pose proof (Harr "mu" ltac:(compute_done)) as Hmu.
  pose proof (Harr "s_mu" ltac:(compute_done)) as Hsmu.
  unfold load_parameters. cbv zeta.
  do 21 step_defined.
  done.
Qed.
End LoaderArrays.


(** * The whole of a call *)

Lemma array_get_set_eq {A} (l : list A) (i : Z) (v w : A) :
  array_get l i = Some w -> array_get (array_set l i v) i = Some v.
Proof.
  unfold array_get, array_set. destruct (0 <=? i); [|done].
  intros Hw. apply list_lookup_insert_eq. by eapply lookup_lt_Some.
Qed.

Lemma array_get_set_ne {A} (l : list A) (i j : Z) (v : A) :
  0 <= i -> i <> j -> array_get (array_set l i v) j = array_get l j.
Proof.
  intros Hi Hne. unfold array_get, array_set.
  destruct (0 <=? j) eqn:Hj; [|done].
  apply list_lookup_insert_ne. lia.
Qed.

Lemma array_get_nonneg {A} (l : list A) (i : Z) (w : A) :
  array_get l i = Some w -> 0 <= i.
Proof. unfold array_get. destruct (0 <=? i) eqn:Hi; [lia | done]. Qed.

Ltac bridge_simpl :=
  cbn [Z.eqb negb data console plhs prhs xrhs nrhs f verbose neval
       set_plhs set_prhs set_neval fst snd].

Section BridgeWhole.
Context `{Host}.
Implicit Types (n : Z) (x : list double) (b : bridge).

(** X11.  When the host call does not complete, the call of the bridge stops
    with the invocation message: no result is looked at or released, nothing
    is printed, and the counter stays. *)
Theorem failed_host_call n x g b arg pr status results :
  array_get (prhs (data b)) (xrhs (data b)) = Some (Some arg) ->
  memcpy (mxGetPr arg) x (size_mul n sizeof_double) = Some pr ->
  host_call (console b) (nlhs_for g) (nrhs (data b))
            (array_set (prhs (data b)) (xrhs (data b)) (Some (with_pr pr arg)))
            (f (data b))
    = (status, results) ->
  status <> 0 ->
  user_function n x g b
  = Raised "error calling user function"
      {| data := set_plhs results
                   (set_prhs (array_set (prhs (data b)) (xrhs (data b))
                                        (Some (with_pr pr arg)))
                             (data b));
         console := (console b
                     ++ [EvCallMATLAB (nlhs_for g) (nrhs (data b))
                           (array_set (prhs (data b)) (xrhs (data b))
                                      (Some (with_pr pr arg)))
                           (f (data b))])%list |}.
Proof.
  intros Hslot Hcopy Hhost Hstatus. unfold nlhs_for in Hhost. bridge_unfold.
  rewrite Hslot, Hcopy. cbn [data console]. rewrite Hhost.
  destruct (0 =? status) eqn:H0; [lia|]. reflexivity.
Qed.

(** X12.  When the host call completes and its first result is not one real
    numeric scalar, the call of the bridge stops with the scalar message:
    no result is released and the counter stays. *)
Theorem value_must_be_real_scalar n x g b arg pr r0 r1 :
  array_get (prhs (data b)) (xrhs (data b)) = Some (Some arg) ->
  memcpy (mxGetPr arg) x (size_mul n sizeof_double) = Some pr ->
  host_call (console b) (nlhs_for g) (nrhs (data b))
            (array_set (prhs (data b)) (xrhs (data b)) (Some (with_pr pr arg)))
            (f (data b))
    = (0, (Some r0, r1)) ->
  real_scalar r0 = false ->
  user_function n x g b
  = Raised "user function must return real scalar"
      {| data := set_plhs (Some r0, r1)
                   (set_prhs (array_set (prhs (data b)) (xrhs (data b))
                                        (Some (with_pr pr arg)))
                             (data b));
         console := (console b
                     ++ [EvCallMATLAB (nlhs_for g) (nrhs (data b))
                           (array_set (prhs (data b)) (xrhs (data b))
                                      (Some (with_pr pr arg)))
                           (f (data b))])%list |}.
Proof.
  intros Hslot Hcopy Hhost Hbad. unfold nlhs_for in Hhost.
  unfold real_scalar, real_numeric, element_count in Hbad. bridge_unfold.
  rewrite Hslot, Hcopy. cbn [data console]. rewrite Hhost.
  bridge_simpl. by rewrite Hbad.
Qed.

(** X13.  A call without gradient whose host call completes with one real
    numeric scalar as first result returns that scalar: the counter goes up
    by one, the result is released, and with [verbose] set one line with the
    new count and the value is printed. *)
Theorem value_without_gradient n x b arg pr r0 r1 :
  array_get (prhs (data b)) (xrhs (data b)) = Some (Some arg) ->
  memcpy (mxGetPr arg) x (size_mul n sizeof_double) = Some pr ->
  host_call (console b) 1 (nrhs (data b))
            (array_set (prhs (data b)) (xrhs (data b)) (Some (with_pr pr arg)))
            (f (data b))
    = (0, (Some r0, r1)) ->
  real_scalar r0 = true ->
  user_function n x None b
  = Done (mxGetScalar r0, None)
      {| data := set_neval (int_incr (neval (data b)))
                   (set_plhs (Some r0, r1)
                      (set_prhs (array_set (prhs (data b)) (xrhs (data b))
                                           (Some (with_pr pr arg)))
                                (data b)));
         console := (console b
                     ++ [EvCallMATLAB 1 (nrhs (data b))
                           (array_set (prhs (data b)) (xrhs (data b))
                                      (Some (with_pr pr arg)))
                           (f (data b));
                         EvDestroyArray r0]
                     ++ if verbose (data b) =? 0 then []
                        else [EvPrintf "Optimize eval #%d: %g\n"
                                [ArgInt (int_incr (neval (data b)));
                                 ArgDouble (mxGetScalar r0)]])%list |}.
Proof.
  intros Hslot Hcopy Hhost Hok.
  unfold real_scalar, real_numeric, element_count in Hok. bridge_unfold.
  rewrite Hslot, Hcopy. cbn [data console]. rewrite Hhost.
  bridge_simpl. rewrite Hok. bridge_simpl.
  destruct (verbose (data b) =? 0); bridge_simpl;
    rewrite <- ?app_assoc; [by rewrite app_nil_r | done].
Qed.

(** X14.  A call with gradient whose host call completes with one real
    numeric scalar and a real double vector of [n] elements returns the
    scalar and the gradient buffer with the vector copied in: the counter
    goes up by one, both results are released in turn, and with [verbose]
    set one line is printed. *)
Theorem value_with_gradient n x buf b arg pr r0 r1 buf' :
  array_get (prhs (data b)) (xrhs (data b)) = Some (Some arg) ->
  memcpy (mxGetPr arg) x (size_mul n sizeof_double) = Some pr ->
  host_call (console b) 2 (nrhs (data b))
            (array_set (prhs (data b)) (xrhs (data b)) (Some (with_pr pr arg)))
            (f (data b))
    = (0, (Some r0, Some r1)) ->
  real_scalar r0 = true ->
  real_double_vector n r1 = true ->
  memcpy buf (mxGetPr r1) (size_mul n sizeof_double) = Some buf' ->
  user_function n x (Some buf) b
  = Done (mxGetScalar r0, Some buf')
      {| data := set_neval (int_incr (neval (data b)))
                   (set_plhs (Some r0, Some r1)
                      (set_prhs (array_set (prhs (data b)) (xrhs (data b))
                                           (Some (with_pr pr arg)))
                                (data b)));
         console := (console b
                     ++ [EvCallMATLAB 2 (nrhs (data b))
                           (array_set (prhs (data b)) (xrhs (data b))
                                      (Some (with_pr pr arg)))
                           (f (data b));
                         EvDestroyArray r0; EvDestroyArray r1]
                     ++ if verbose (data b) =? 0 then []
                        else [EvPrintf "Optimize eval #%d: %g\n"
                                [ArgInt (int_incr (neval (data b)));
                                 ArgDouble (mxGetScalar r0)]])%list |}.
Proof.
  intros Hslot Hcopy Hhost Hok Hvec Hgrad.
  unfold real_scalar, real_numeric, element_count in Hok.
  unfold real_double_vector, element_count in Hvec. bridge_unfold.
  rewrite Hslot, Hcopy. cbn [data console]. rewrite Hhost.
  bridge_simpl. rewrite Hok. bridge_simpl.
  rewrite Hvec. bridge_simpl. rewrite Hgrad. bridge_simpl.
  destruct (verbose (data b) =? 0); bridge_simpl;
    rewrite <- ?app_assoc; [by rewrite app_nil_r | done].
Qed.

(** X15.  When the gradient result fails its check, the call stops with the
    gradient message after the value has been read: the first result is
    released, the second is not, and the counter stays. *)
Theorem gradient_must_be_real_double_vector n x buf b arg pr r0 r1 :
  array_get (prhs (data b)) (xrhs (data b)) = Some (Some arg) ->
  memcpy (mxGetPr arg) x (size_mul n sizeof_double) = Some pr ->
  host_call (console b) 2 (nrhs (data b))
            (array_set (prhs (data b)) (xrhs (data b)) (Some (with_pr pr arg)))
            (f (data b))
    = (0, (Some r0, Some r1)) ->
  real_scalar r0 = true ->
  real_double_vector n r1 = false ->
  user_function n x (Some buf) b
  = Raised "gradient vector from user function is the wrong size"
      {| data := set_plhs (Some r0, Some r1)
                   (set_prhs (array_set (prhs (data b)) (xrhs (data b))
                                        (Some (with_pr pr arg)))
                             (data b));
         console := (console b
                     ++ [EvCallMATLAB 2 (nrhs (data b))
                           (array_set (prhs (data b)) (xrhs (data b))
                                      (Some (with_pr pr arg)))
                           (f (data b));
                         EvDestroyArray r0])%list |}.
Proof.
  intros Hslot Hcopy Hhost Hok Hvec.
  unfold real_scalar, real_numeric, element_count in Hok.
  unfold real_double_vector, element_count in Hvec. bridge_unfold.
  rewrite Hslot, Hcopy. cbn [data console]. rewrite Hhost.
  bridge_simpl. rewrite Hok. bridge_simpl.
  rewrite Hvec. bridge_simpl. by rewrite <- app_assoc.
Qed.

(** X16.  Whatever stops a call with a message, the message is one of the
    three the bridge has, so the error is an invocation error or a type
    error. *)
Theorem bridge_errors n x g b msg b' :
  user_function n x g b = Raised msg b' ->
  msg ∈ bridge_messages
  /\ (error_kind msg = Some InvocationError \/ error_kind msg = Some TypeError).
Proof.
  bridge_unfold. intros Hrun. bridge_cases.
  all: split; [compute_done | first [by left | by right]].
Qed.
End BridgeWhole.

Section BridgeInvariants.
Context `{Host}.
Implicit Types (n : Z) (x : list double) (b : bridge).

(** What every call that gets as far as leaving a state behind has done
    first: copied the point into the argument at [xrhs] and called the host
    function, once. *)
Lemma call_marshals n x g b b' :
  left_behind (user_function n x g b) = Some b' ->
  exists arg pr evs,
    array_get (prhs (data b)) (xrhs (data b)) = Some (Some arg)
    /\ memcpy (mxGetPr arg) x (size_mul n sizeof_double) = Some pr
    /\ prhs (data b')
       = array_set (prhs (data b)) (xrhs (data b)) (Some (with_pr pr arg))
    /\ xrhs (data b') = xrhs (data b)
    /\ console b'
       = (console b
          ++ EvCallMATLAB (nlhs_for g) (nrhs (data b)) (prhs (data b'))
                          (f (data b)) :: evs)%list
    /\ results_requested evs = [].
Proof.
  unfold left_behind, nlhs_for. bridge_unfold. intros Hleft. bridge_cases.
  all: eexists _, _, _; split_and!; [done | done | done | done | | ].
  all: rewrite <- ?app_assoc; cbn [app]; done.
Qed.


(** X18.  The host function is called once, for two results when a gradient
    is asked for and for one otherwise, and what it gets at position [xrhs]
    is the argument array with the [n] coordinates of the point at its front;
    that array stays in the slot afterwards, and the other slots are left
    alone. *)
Theorem host_sees_the_point n x g b b' :
  0 <= n < 2 ^ 32 ->
  left_behind (user_function n x g b) = Some b' ->
  exists arg evs,
    array_get (prhs (data b)) (xrhs (data b)) = Some (Some arg)
    /\ (Z.to_nat n <= length x)%nat
    /\ (Z.to_nat n <= length (mxGetPr arg))%nat
    /\ console b'
       = (console b
          ++ EvCallMATLAB (nlhs_for g) (nrhs (data b)) (prhs (data b'))
                          (f (data b)) :: evs)%list
    /\ results_requested evs = []
    /\ array_get (prhs (data b')) (xrhs (data b))
       = Some (Some (with_pr (take (Z.to_nat n) x
                              ++ drop (Z.to_nat n) (mxGetPr arg))%list arg))
    /\ (forall j, j <> xrhs (data b) ->
                  array_get (prhs (data b')) j = array_get (prhs (data b)) j).
Proof.
  intros Hn Hleft.
  apply call_marshals in Hleft
    as (arg & pr & evs & Hslot & Hcopy & Hprhs & _ & Hconsole & Hcalls).
  apply memcpy_exact in Hcopy as (-> & Hx & Harg); [|lia].
  exists arg, evs. split_and!; try done.
  - rewrite Hprhs. by eapply array_get_set_eq.
  - intros j Hj. rewrite Hprhs. apply array_get_set_ne; [|done].
    by eapply array_get_nonneg.
Qed.

(** X19.  A call keeps the bridge ready: when the argument slot holds an
    array with room for a point of dimension [m], it still does after any
    call that returns or raises. *)
Theorem bridge_stays_ready m n x g b b' :
  bridge_ready m b ->
  left_behind (user_function n x g b) = Some b' ->
  bridge_ready m b'.
Proof.
  intros (arg0 & Hslot0 & Hroom) Hleft.
  apply call_marshals in Hleft
    as (arg & pr & evs & Hslot & Hcopy & Hprhs & Hxrhs & _).
  assert (arg0 = arg) as -> by congruence.
  exists (with_pr pr arg). split.
  - rewrite Hxrhs, Hprhs. by eapply array_get_set_eq.
  - cbn [with_pr mxGetPr]. by rewrite (memcpy_length _ _ _ _ Hcopy).
Qed.

(** X20.  Of two calls in a row that return, the second overwrites the point
    of the first in the argument array, and the counter has gone up
    twice. *)
Theorem second_call_overwrites_the_point n x1 x2 g1 g2 b r1 b1 r2 b2 :
  0 <= n < 2 ^ 32 ->
  user_function n x1 g1 b = Done r1 b1 ->
  user_function n x2 g2 b1 = Done r2 b2 ->
  exists arg,
    array_get (prhs (data b)) (xrhs (data b)) = Some (Some arg)
    /\ array_get (prhs (data b2)) (xrhs (data b2))
       = Some (Some (with_pr (take (Z.to_nat n) x2
                              ++ drop (Z.to_nat n) (mxGetPr arg))%list arg))
    /\ neval (data b2) = int_incr (int_incr (neval (data b))).
Proof.
  intros Hn Hrun1 Hrun2.
  pose proof (counter_on_return _ _ _ _ _ _ Hrun1) as Hc1.
  pose proof (counter_on_return _ _ _ _ _ _ Hrun2) as Hc2.
  assert (left_behind (user_function n x1 g1 b) = Some b1) as Hl1
      by (by rewrite Hrun1).
  assert (left_behind (user_function n x2 g2 b1) = Some b2) as Hl2
      by (by rewrite Hrun2).
  apply call_marshals in Hl1
    as (arg & pr1 & evs1 & Hslot1 & Hcopy1 & Hprhs1 & Hxrhs1 & _).
  apply call_marshals in Hl2
    as (arg1 & pr2 & evs2 & Hslot2 & Hcopy2 & Hprhs2 & Hxrhs2 & _).
  rewrite Hxrhs1, Hprhs1 in Hslot2.
  rewrite (array_get_set_eq _ _ _ _ Hslot1) in Hslot2.
  injection Hslot2 as <-.
  apply memcpy_exact in Hcopy1 as (-> & Hx1 & Harg); [|lia].
  apply memcpy_exact in Hcopy2 as (-> & Hx2 & _); [|lia].
  exists arg. split_and!; [done | | congruence].
  rewrite Hxrhs2, Hprhs2, Hxrhs1, Hprhs1.
  erewrite array_get_set_eq by (by eapply array_get_set_eq).
  unfold with_pr.
  cbn [mxGetPr mxGetClassID mxIsComplex mxGetM mxGetN mxFirstAsDouble
       mxArrayToString].
  rewrite drop_app_length'; [done|].
  rewrite length_take. lia.
Qed.

(** X21.  A call stays within what C defines (it returns, or stops with a
    message) when the argument slot, the point and the gradient buffer have
    room for [n] doubles, the host call gives as many results as it was
    asked for when it completes, and a double array it gives as second
    result has its elements in its storage. *)
Theorem call_within_bounds_is_defined n x g b :
  0 <= n ->
  bridge_ready n b ->
  (Z.to_nat n <= length x)%nat ->
  (forall buf, g = Some buf -> (Z.to_nat n <= length buf)%nat) ->
  host_keeps_contract ->
  host_results_hold_elements ->
  user_function n x g b <> Undefined.
Proof.
  intros Hn (arg & Hslot & Hroom) Hx Hbuf Hcontract Hstorage.
  destruct (memcpy_fits (mxGetPr arg) x n Hn Hroom Hx) as [pr Hcopy].
  bridge_unfold. rewrite Hslot, Hcopy. cbn [data console].
  destruct (host_call _ _ _ _ _) as [status [r0 r1]] eqn:Hhost.
  destruct (0 =? status) eqn:Hstatus; bridge_simpl; [|done].
  apply Z.eqb_eq in Hstatus as <-.
  destruct (Hcontract _ _ _ _ _ _ _ Hhost) as [[a0 ->] Hsecond].
  destruct (mxIsNumeric a0 && negb (mxIsComplex a0)
            && (size_mul (mxGetM a0) (mxGetN a0) =? 1));
    bridge_simpl; [|done].
  destruct g as [buf|].
  - destruct (Hsecond eq_refl) as [a1 ->].
    destruct (mxIsDouble a1 && negb (mxIsComplex a1)
              && ((mxGetM a1 =? 1) || (mxGetN a1 =? 1))
              && (size_mul (mxGetM a1) (mxGetN a1) =? n)) eqn:Hcheck;
      bridge_simpl; [|done].
    apply andb_prop in Hcheck as [Hcheck Hcount%Z.eqb_eq].
    apply andb_prop in Hcheck as [Hcheck _].
    apply andb_prop in Hcheck as [Hdouble _].
    pose proof (Hstorage _ _ _ _ _ _ _ _ Hhost Hdouble) as Helems.
    unfold element_count in Helems. rewrite Hcount in Helems.
    destruct (memcpy_fits buf (mxGetPr a1) n Hn (Hbuf buf eq_refl) Helems)
      as [buf' ->].
    bridge_simpl. by destruct (verbose (data b) =? 0).
  - bridge_simpl. by destruct (verbose (data b) =? 0).
Qed.
End BridgeInvariants.


(** * More runs on the sample engine *)

Section MoreRuns.
Import Sample Runs.

Ltac run_of o p t' Hrun :=
  destruct o as [p t'|?msg ?t'|] eqn:Hrun;
  [|by vm_compute in Hrun|by vm_compute in Hrun].

Lemma loaded_scalars_witness :
  exists p t',
    @load_parameters target engine config_kernel [] = Done p t'
    /\ n_iterations p = 50
    /\ n_inner_iterations p = 500
    /\ noise p = dbl 1 (-3).
Proof.
  run_of (@load_parameters target engine config_kernel []) p t' Hrun.
  exists p, t'. split; [done|].
  destruct (@loaded_scalars target engine config_kernel [] p t' Hrun)
    as (-> & -> & _ & _ & _ & _ & ->).
  split_and!; reflexivity.
Defined.

Lemma malformed_scalar_is_fatal_witness :
  exists t', @load_parameters target engine config_text_budget []
             = Raised "param fields must be real scalars" t'.
Proof.
  apply (@malformed_scalar_is_fatal target engine config_text_budget []
                                    "n_iterations").
  - compute_done.
  - reflexivity.
Defined.

Lemma loaded_arrays_witness :
  exists p t',
    @load_parameters target engine config_kernel [] = Done p t'
    /\ array_in p "theta" = [dbl 1 0; dbl 1 1; zero; zero]
    /\ array_in p "mu" = [dbl 1 0; zero; zero; zero]
    /\ n_theta (kernel p) = 2.
Proof.
  run_of (@load_parameters target engine config_kernel []) p t' Hrun.
  exists p, t'. split; [done|].
  destruct (@loaded_arrays target engine config_kernel [] p t' Hrun)
    as (Harr & -> & _).
  destruct (Harr "theta" ltac:(compute_done)) as [_ Htheta].
  destruct (Htheta (mx_row [dbl 1 0; dbl 1 1]) eq_refl ltac:(by vm_compute))
    as [-> _].
  destruct (Harr "mu" ltac:(compute_done)) as [Hmu _].
  rewrite (Hmu eq_refl).
  split_and!; reflexivity.
Defined.

Lemma buffers_keep_capacity_witness :
  exists p t',
    @load_parameters target engine config_kernel [] = Done p t'
    /\ length (array_in p "theta") = 4%nat.
Proof.
  run_of (@load_parameters target engine config_kernel []) p t' Hrun.
  exists p, t'. split; [done|].
  rewrite (@buffers_keep_capacity target engine config_kernel [] p t' "theta"
             Hrun ltac:(compute_done)).
  reflexivity.
Defined.

Lemma diagnostics_name_the_absent_fields_witness :
  exists p t',
    @load_parameters target engine config_kernel [] = Done p t'
    /\ t' = map absence_diagnostic config_kernel_absent.
Proof.
  run_of (@load_parameters target engine config_kernel []) p t' Hrun.
  exists p, t'. split; [done|].
  rewrite (@diagnostics_name_the_absent_fields target engine config_kernel []
             p t' Hrun).
  reflexivity.
Defined.

Lemma loaded_fields_are_well_typed_witness :
  exists p t',
    @load_parameters target engine config_kernel [] = Done p t'
    /\ real_scalar (mx_scalar (dbl 25 1)) = true
    /\ real_numeric (mx_row [dbl 1 0; dbl 1 1]) = true
    /\ mxIsChar (mx_char "STUDENT_T_PROCESS") = true.
Proof.
  run_of (@load_parameters target engine config_kernel []) p t' Hrun.
  exists p, t'. split; [done|].
  destruct (@loaded_fields_are_well_typed target engine config_kernel [] p t'
              Hrun) as (Hscalar & Harray & Htext).
  split_and!.
  - apply (Hscalar "n_iterations"); [compute_done | reflexivity].
  - apply (Harray "theta"); [compute_done | reflexivity].
  - apply (Htext "surr_name"); [compute_done | reflexivity].
Defined.

Lemma well_formed_configuration_loads_witness :
  exists p t', @load_parameters target engine config_kernel [] = Done p t'.
Proof.
  apply (@well_formed_configuration_loads target engine config_kernel []).
  - reflexivity.
  - apply Forall_forall. compute_done.
  - reflexivity.
  - reflexivity.
  - reflexivity.
  - compute_done.
  - compute_done.
Defined.

Lemma unknown_fields_are_ignored_witness :
  @load_parameters target engine config_kernel []
  = @load_parameters target engine config_kernel_known [].
Proof.
  apply (@unknown_fields_are_ignored target engine config_kernel
                                     config_kernel_known []).
  intros name Hin.
  unfold optional_fields, size_fields, value_fields, array_fields,
    string_fields in Hin.
  cbn [app] in Hin.
  repeat (apply elem_of_cons in Hin as [-> | Hin]; [reflexivity|]).
  by apply elem_of_nil in Hin.
Defined.

Lemma loader_errors_witness :
  exists msg t',
    @load_parameters target engine config_text_budget [] = Raised msg t'
    /\ msg ∈ loader_messages
    /\ (error_kind msg = Some TypeError \/ error_kind msg = Some ValidationError).
Proof.
  destruct (@load_parameters target engine config_text_budget [])
    as [p t'|msg t'|] eqn:Hrun;
    [by vm_compute in Hrun| |by vm_compute in Hrun].
  exists msg, t'. split; [done|].
  exact (@loader_errors target engine config_text_budget [] msg t' Hrun).
Defined.

Lemma load_within_bounds_is_defined_witness :
  @load_parameters target engine config_kernel [] <> Undefined.
Proof.
  apply (@load_within_bounds_is_defined target engine config_kernel []).
  - apply Forall_forall. compute_done.
  - compute_done.
  - compute_done.
Defined.

Lemma failed_host_call_witness :
  exists b',
    @user_function host_failing 3 point None start
    = Raised "error calling user function" b'
    /\ neval (data b') = 7
    /\ released (console b') = [].
Proof.
  eexists. split.
  - apply (@failed_host_call host_failing 3 point None start point_array
                             point 1 (None, None));
      [reflexivity | reflexivity | reflexivity | done].
  - split; reflexivity.
Defined.

Lemma value_must_be_real_scalar_witness :
  exists b',
    @user_function host_returning_text 3 point None start
    = Raised "user function must return real scalar" b'
    /\ neval (data b') = 7
    /\ released (console b') = [].
Proof.
  eexists. split.
  - apply (@value_must_be_real_scalar host_returning_text 3 point None start
                                      point_array point (mx_char "4.2") None);
      reflexivity.
  - split; reflexivity.
Defined.

Lemma value_without_gradient_witness :
  exists b',
    @user_function (host_returning []) 3 point None chatty
    = Done (d4_2, None) b'
    /\ neval (data b') = 8
    /\ released (console b') = [mx_scalar d4_2]
    /\ printed (console b')
       = [("Optimize eval #%d: %g\n", [ArgInt 8; ArgDouble d4_2])].
Proof.
  eexists. split.
  - apply (@value_without_gradient (host_returning []) 3 point chatty
                                   point_array point (mx_scalar d4_2) None);
      reflexivity.
  - split_and!; reflexivity.
Defined.

Lemma value_with_gradient_witness :
  exists b',
    @user_function (host_returning slope) 3 point (Some [zero; zero; zero])
                   start
    = Done (d4_2, Some slope) b'
    /\ neval (data b') = 8
    /\ released (console b') = [mx_scalar d4_2; mx_row slope]
    /\ printed (console b') = [].
Proof.
  eexists. split.
  - apply (@value_with_gradient (host_returning slope) 3 point
                                [zero; zero; zero] start point_array point
                                (mx_scalar d4_2) (mx_row slope) slope);
      reflexivity.
  - split_and!; reflexivity.
Defined.

Lemma gradient_must_be_real_double_vector_witness :
  exists b',
    @user_function (host_returning [zero; zero]) 3 point
                   (Some [zero; zero; zero]) start
    = Raised "gradient vector from user function is the wrong size" b'
    /\ neval (data b') = 7
    /\ released (console b') = [mx_scalar d4_2].
Proof.
  eexists. split.
  - apply (@gradient_must_be_real_double_vector
             (host_returning [zero; zero]) 3 point [zero; zero; zero] start
             point_array point (mx_scalar d4_2) (mx_row [zero; zero]));
      reflexivity.
  - split; reflexivity.
Defined.

Lemma bridge_errors_witness :
  exists msg b',
    @user_function host_failing 3 point None start = Raised msg b'
    /\ msg ∈ bridge_messages
    /\ (error_kind msg = Some InvocationError \/ error_kind msg = Some TypeError).
Proof.
  destruct (@user_function host_failing 3 point None start)
    as [r b'|msg b'|] eqn:Hrun;
    [by vm_compute in Hrun| |by vm_compute in Hrun].
  exists msg, b'. split; [done|].
  exact (@bridge_errors host_failing 3 point None start msg b' Hrun).
Defined.


Lemma host_sees_the_point_witness :
  exists b' evs,
    left_behind (@user_function (host_returning slope) 3 point
                                (Some [zero; zero; zero]) start) = Some b'
    /\ console b'
       = EvCallMATLAB 2 1 [Some (with_pr point point_array); None] "fobj" :: evs
    /\ results_requested evs = []
    /\ array_get (prhs (data b')) 0 = Some (Some (with_pr point point_array))
    /\ array_get (prhs (data b')) 1 = Some None.
Proof.
  destruct (left_behind (@user_function (host_returning slope) 3 point
                                        (Some [zero; zero; zero]) start))
    as [b'|] eqn:Hleft; [|by vm_compute in Hleft].
  destruct (@host_sees_the_point (host_returning slope) 3 point
              (Some [zero; zero; zero]) start b' ltac:(lia) Hleft)
    as (arg & evs & Hslot & _ & _ & Hconsole & Hcalls & Hpoint & Hothers).
  injection Hslot as <-.
  exists b', evs. split_and!; [done | | done | exact Hpoint | ].
  - rewrite Hconsole. vm_compute in Hleft. injection Hleft as <-. reflexivity.
  - rewrite (Hothers 1); [reflexivity | done].
Defined.

Lemma bridge_stays_ready_witness :
  exists b',
    left_behind (@user_function host_failing 3 point None start) = Some b'
    /\ bridge_ready 3 b'.
Proof.
  destruct (left_behind (@user_function host_failing 3 point None start))
    as [b'|] eqn:Hleft; [|by vm_compute in Hleft].
  exists b'. split; [done|].
  apply (@bridge_stays_ready host_failing 3 3 point None start b'); [|done].
  exists point_array. split; [reflexivity | cbn; lia].
Defined.

Lemma second_call_overwrites_the_point_witness :
  exists r1 b1 r2 b2,
    @user_function (host_returning []) 3 point None start = Done r1 b1
    /\ @user_function (host_returning []) 3 other_point None b1 = Done r2 b2
    /\ array_get (prhs (data b2)) (xrhs (data b2))
       = Some (Some (with_pr other_point point_array))
    /\ neval (data b2) = 9.
Proof.
  run_of (@user_function (host_returning []) 3 point None start) r1 b1 Hrun1.
  destruct (@user_function (host_returning []) 3 other_point None b1)
    as [r2 b2|msg b2|] eqn:Hrun2.
  - exists r1, b1, r2, b2. split_and!; [done | done | |].
    + destruct (@second_call_overwrites_the_point
                  (host_returning []) 3 point other_point None None start
                  r1 b1 r2 b2 ltac:(lia) Hrun1 Hrun2)
        as (arg & Hslot & Hfinal & _).
      injection Hslot as <-. exact Hfinal.
    + destruct (@second_call_overwrites_the_point
                  (host_returning []) 3 point other_point None None start
                  r1 b1 r2 b2 ltac:(lia) Hrun1 Hrun2)
        as (_ & _ & _ & ->).
      reflexivity.
  - exfalso. vm_compute in Hrun1. injection Hrun1 as <- <-.
    by vm_compute in Hrun2.
  - exfalso. vm_compute in Hrun1. injection Hrun1 as <- <-.
    by vm_compute in Hrun2.
Defined.

Lemma call_within_bounds_is_defined_witness :
  @user_function (host_returning slope) 3 point (Some [zero; zero; zero]) start
  <> Undefined.
Proof.
  apply (@call_within_bounds_is_defined (host_returning slope)).
  - lia.
  - exists point_array. split; [reflexivity | cbn; lia].
  - cbn. lia.
  - intros buf [= <-]. cbn. lia.
  - intros t nlhs nrhs prhs name r0 r1. cbn [host_call host_returning].
    intros [= <- <-]. split; [by eexists|].
    intros ->. by eexists.
  - intros t nlhs nrhs prhs name status r0 r1. cbn [host_call host_returning].
    intros [= _ _ Hr1] _. destruct (nlhs =? 2); [|done].
    injection Hr1 as <-. compute_done.
Defined.
End MoreRuns.
